(** * MADRID anomaly detector: a shallow embedding of
      [aeon/anomaly_detection/_madrid.py] and the properties of its
      input guard, its pivot selection and its runtime estimator.

    Conventions of the embedding.
    - Python [int] is [Z].
    - A one-dimensional series is a [list Q]: the finite values of a
      float64 array (or of an integer array).  [np.diff] is taken over
      the rationals: the code only tests its entries against zero, and a
      difference of two finite doubles or integers is zero exactly when
      they are equal.
      [np.var] is computed in IEEE binary64, on the kernel's primitive
      floats, with numpy's order of operations (pairwise summation); its
      input is first rounded to the nearest double, which leaves the values
      of a float64 array as they are.
    - The cost models of the estimator are evaluated exactly over the
      rationals ([np.polyval] and the decimal literals are read at face
      value).  The non-finite floats the code writes ([-inf], [nan]) are
      separate constructors of [pyfloat].
    - True division of integers is exact.  Python rounds the quotient to
      the nearest double: the quotients of the estimator, of a length by
      1, 2, 4, 8 or 16, are doubles themselves while the lengths are below
      2^53 in magnitude, and the properties that name these quotients carry
      that bound.
      The two degree-6 cost models are also given in IEEE binary64, with
      [np.polyval] evaluated in binary64 as numpy does, to check that a
      counterexample does not hinge on the exact arithmetic.
    - A function body that assigns locals and may raise is a computation in
      the monad [M]: it threads the frame of local variables and stops at
      the first raised exception, keeping the frame reached so far. *)

From Stdlib Require Import ZArith QArith Qround Qpower List String Bool.
From Stdlib Require Import Lia Lqa PrimFloat Sorted.
Import ListNotations.
Open Scope Z_scope.
Set Warnings "-inexact-float".

(** ** Exceptions *)

(** The messages of the [raise] statements of the module, and of the
    built-in failures the module's statements can run into. *)
Inductive message : Type :=
| step_size_must_be_greater_than_0
    (* "step_size must be greater than 0" *)
| You_cannot_set_both_parameters
    (* "You cannot set both parameters, estimate_time helps you pick ..." *)
| Series_length_of_X_is_less_than_min_length (len_X min_len : Z)
    (* f"Series length of X {X.shape[0]} is less than min_length {...}" *)
| BREAK_constant_region
    (* "BREAK: There is at least one region of length min_length that is
        constant, or near constant. ..." *)
| negative_dimensions_are_not_allowed        (* np.full, np.zeros *)
| max_arg_is_an_empty_sequence               (* max([]) *)
| range_arg_3_must_not_be_zero               (* range(a, b, 0) *)
| division_by_zero                           (* x / 0 *)
| len_of_unsized_object                      (* len() of a 0-d array *)
| takes_positional_arguments_but_were_given (takes given : Z)
| unsupported_operand_types                  (* len_x - self.split_psn *)
| index_is_out_of_bounds (index size : Z).   (* a[i] with i out of range *)

Inductive exception : Type :=
| ValueError (msg : message)
| TypeError (msg : message)
| IndexError (msg : message)
| ZeroDivisionError (msg : message).

Inductive result (A : Type) : Type :=
| Ok (a : A)
| Raise (e : exception).
Arguments Ok {A} a.
Arguments Raise {A} e.

Definition result_bind {A B} (r : result A) (k : A -> result B) : result B :=
  match r with
  | Ok a => k a
  | Raise e => Raise e
  end.

(** ** Python values and frames of locals *)

Inductive pyfloat : Type :=
| NegInf
| NaN
| Fin (q : Q).

Inductive value : Type :=
| VNone
| VSelf                                   (* a reference to the detector *)
| VInt (z : Z)
| VFloat (x : pyfloat)
| VList (l : list Q)                      (* a list of float literals *)
| VArrayInt (a : list Z)                  (* 1-D integer ndarray *)
| VArray1 (a : list Q)                    (* 1-D float ndarray *)
| VArray2 (a : list (list pyfloat)).      (* 2-D float ndarray *)

Definition frame : Type := list (string * value).

Fixpoint lookup (x : string) (f : frame) : option value :=
  match f with
  | [] => None
  | (y, v) :: f' => if String.eqb x y then Some v else lookup x f'
  end.

(** The state-and-exception monad of a function body. *)
Definition M (A : Type) : Type := frame -> frame * result A.

Definition ret {A} (a : A) : M A := fun f => (f, Ok a).
Definition raise {A} (e : exception) : M A := fun f => (f, Raise e).
Definition bind {A B} (c : M A) (k : A -> M B) : M B :=
  fun f =>
    match c f with
    | (f', Ok a) => k a f'
    | (f', Raise e) => (f', Raise e)
    end.
Definition lift {A} (r : result A) : M A := fun f => (f, r).
(** [x = v]: bind the local [x], shadowing an earlier binding. *)
Definition assign (x : string) (v : value) : M unit :=
  fun f => ((x, v) :: f, Ok tt).

Declare Scope py_scope.
Delimit Scope py_scope with py.
Notation "x <- c ;; k" := (bind c (fun x => k))
  (at level 61, c at next level, right associativity) : py_scope.
Notation "c ;; k" := (bind c (fun _ => k))
  (at level 61, right associativity) : py_scope.
Notation "x ::= v" := (assign x v) (at level 60) : py_scope.

(** Run a body on the empty frame: the frame at exit and the outcome. *)
Definition run {A} (c : M A) : frame * result A := c [].
Definition frame_of {A} (c : M A) : frame := fst (run c).
Definition outcome {A} (c : M A) : result A := snd (run c).

(** ** Built-ins and numpy primitives *)

Definition truthy (o : option Z) : bool :=
  match o with
  | None => false
  | Some z => negb (z =? 0)
  end.

(** [a / b] on integers (true division), exact: the quotient before
    Python rounds it to the nearest double. *)
Definition truediv (a b : Z) : result Q :=
  if b =? 0 then Raise (ZeroDivisionError division_by_zero)
  else Ok (inject_Z a / inject_Z b)%Q.

(** [math.ceil], [np.ceil] followed by [int]. *)
Definition ceil (q : Q) : Z := Qceiling q.

(** [len(range(start, stop, step))]. *)
Definition len_range (start stop step : Z) : result Z :=
  if step =? 0 then Raise (ValueError range_arg_3_must_not_be_zero)
  else if 0 <? step then
    Ok (if start <? stop then (stop - start - 1) / step + 1 else 0)
  else
    Ok (if stop <? start then (start - stop - 1) / (- step) + 1 else 0).

(** [np.polyval(p, x)]: Horner's scheme, highest degree first. *)
Definition polyval (p : list Q) (x : Q) : Q :=
  fold_left (fun y pv => y * x + pv)%Q p 0%Q.

(** [np.diff] of a 1-D array. *)
Fixpoint np_diff {A} (sub : A -> A -> A) (a : list A) : list A :=
  match a with
  | x :: (y :: _) as tl => sub y x :: np_diff sub tl
  | _ => []
  end.

(** [np.where(b)[0]]: the indices of the true entries, ascending. *)
Fixpoint np_where_from (i : Z) (b : list bool) : list Z :=
  match b with
  | [] => []
  | true :: b' => i :: np_where_from (i + 1) b'
  | false :: b' => np_where_from (i + 1) b'
  end.
Definition np_where (b : list bool) : list Z := np_where_from 0 b.

Definition len {A} (a : list A) : Z := Z.of_nat (List.length a).

(** [max] of a sequence of integers. *)
Definition py_max (a : list Z) : result Z :=
  match a with
  | [] => Raise (ValueError max_arg_is_an_empty_sequence)
  | x :: a' => Ok (fold_left Z.max a' x)
  end.

(** *** Binary64 values *)

(** [num / den] rounded to the nearest integer, ties to even
    ([num >= 0], [den > 0]). *)
Definition round_half_even (num den : Z) : Z :=
  let q := num / den in
  let r := num mod den in
  match 2 * r ?= den with
  | Lt => q
  | Gt => q + 1
  | Eq => if Z.even q then q else q + 1
  end.

(** The double nearest to [q] (ties to even) as [m * 2 ^ e], with
    [|m| <= 2^53] and [e >= -1074]. *)
Definition binary64_parts (q : Q) : Z * Z :=
  let n := Qnum q in
  let d := Z.pos (Qden q) in
  let a := Z.abs n in
  if a =? 0 then (0, 0)
  else
    let e0 := Z.log2 a - Z.log2 d in
    let e := if (if 0 <=? e0 then d * 2 ^ e0 <=? a else d <=? a * 2 ^ (- e0))
             then e0 else e0 - 1 in
    let shift := Z.max e (-1022) - 52 in
    let m := if 0 <=? shift
             then round_half_even a (d * 2 ^ shift)
             else round_half_even (a * 2 ^ (- shift)) d in
    (if n <? 0 then - m else m, shift).

(** Its value, as a rational. *)
Definition binary64_value (q : Q) : Q :=
  let '(m, e) := binary64_parts q in (inject_Z m * Qpower 2 e)%Q.

(** An integer of at most 53 bits as a double (exact). *)
Fixpoint float_of_positive (p : positive) : float :=
  match p with
  | xH => 1
  | xO p' => 2 * float_of_positive p'
  | xI p' => 2 * float_of_positive p' + 1
  end%float.

Definition float_of_Z (z : Z) : float :=
  match z with
  | Z0 => 0
  | Zpos p => float_of_positive p
  | Zneg p => - float_of_positive p
  end%float.

(** [f * 2 ^ e], by doubling or halving; exact when the result is a
    double, infinite on overflow. *)
Definition ldexp2 (f : float) (e : Z) : float :=
  match e with
  | Z0 => f
  | Zpos p => Pos.iter (fun x => x * 2)%float f p
  | Zneg p => Pos.iter (fun x => x / 2)%float f p
  end.

(** The double nearest to [q]: what [float(q)] or the conversion of an
    integer array to float64 gives; [q] itself when [q] is a double. *)
Definition binary64 (q : Q) : float :=
  let '(m, e) := binary64_parts q in ldexp2 (float_of_Z m) e.

(** *** numpy's sum of a float64 array

    [np.add.reduce] on a contiguous 1-D float64 array starts from [0.0]
    and adds numpy's pairwise sum of the array: a plain loop below 8
    elements; 8 accumulators, combined pairwise, then the remaining
    elements one by one, up to 128 elements; above that, the array is
    split near its middle, at a multiple of 8, and the two sums are
    added. *)
Definition zip_add (r a : list float) : list float :=
  map (fun '(x, y) => (x + y)%float) (combine r a).

Fixpoint add_blocks (blocks : nat) (r a : list float)
    : list float * list float :=
  match blocks with
  | O => (r, a)
  | S b => add_blocks b (zip_add r (firstn 8 a)) (skipn 8 a)
  end.

Definition sum_unrolled (a : list float) : float :=
  let '(r, rest) :=
    add_blocks (List.length a / 8 - 1) (firstn 8 a) (skipn 8 a) in
  match r with
  | [r0; r1; r2; r3; r4; r5; r6; r7] =>
      fold_left PrimFloat.add rest
                (((r0 + r1) + (r2 + r3)) + ((r4 + r5) + (r6 + r7)))%float
  | _ => nan
  end.

(** [fuel] bounds the depth of the splitting; the length of the array is
    enough. *)
Fixpoint pairwise_sum (fuel : nat) (a : list float) : float :=
  let n := List.length a in
  if (n <? 8)%nat then fold_left PrimFloat.add a 0%float
  else if (n <=? 128)%nat then sum_unrolled a
  else match fuel with
       | O => nan
       | S fuel' =>
           let n2 := (n / 2 - (n / 2) mod 8)%nat in
           (pairwise_sum fuel' (firstn n2 a)
            + pairwise_sum fuel' (skipn n2 a))%float
       end.

Definition np_add_reduce (a : list float) : float :=
  (0 + pairwise_sum (List.length a) a)%float.

(** [np.var(X)]: the mean of the squared deviations from the mean, every
    step in binary64; [nan] on an empty array.  The elements of an integer
    array are converted to float64 first; the order of the additions is
    the one numpy follows on a contiguous float64 array. *)
Definition np_var (X : list Q) : float :=
  let arr := map binary64 X in
  let n := float_of_Z (len X) in
  let arrmean := (np_add_reduce arr / n)%float in
  let x := map (fun v => (v - arrmean)%float) arr in
  let x := map (fun v => (v * v)%float) x in
  (np_add_reduce x / n)%float.

(** The variance of the values the array holds, without rounding. *)
Definition Qsum (a : list Q) : Q := fold_right Qplus 0%Q a.

Definition Qmean (a : list Q) : option Q :=
  match a with
  | [] => None
  | _ => Some (Qsum a / inject_Z (len a))%Q
  end.

Definition exact_variance (X : list Q) : option Q :=
  let a := map binary64_value X in
  match Qmean a with
  | Some mu => Qmean (map (fun x => (x - mu) * (x - mu))%Q a)
  | None => None
  end.

(** [np.full((rows, cols), v)]; [np.zeros] is [np.full] with [0.0]. *)
Definition np_full (rows cols : Z) (v : pyfloat) : result (list (list pyfloat)) :=
  if (rows <? 0) || (cols <? 0)
  then Raise (ValueError negative_dimensions_are_not_allowed)
  else Ok (repeat (repeat v (Z.to_nat cols)) (Z.to_nat rows)).

(** [np.arange(start, stop, step)] on integers. *)
Definition np_arange (start stop step : Z) : result (list Z) :=
  result_bind (truediv (stop - start) step) (fun q =>
    Ok (map (fun i => start + Z.of_nat i * step)
            (seq 0 (Z.to_nat (ceil q))))).

(** [a[i]] on a 1-D array, with Python's negative indices. *)
Definition getitem (a : list Z) (i : Z) : result Z :=
  let n := len a in
  if (i <? - n) || (n <=? i) then Raise (IndexError (index_is_out_of_bounds i n))
  else Ok (nth (Z.to_nat (if i <? 0 then i + n else i)) a 0).

(** [X.squeeze()] of a 1-D array: a one-element array becomes 0-d, on which
    [len] raises. *)
Inductive ndarray : Type :=
| Arr0 (x : Q)
| Arr1 (a : list Q).

Definition squeeze (X : list Q) : ndarray :=
  match X with
  | [x] => Arr0 x
  | _ => Arr1 X
  end.

Definition len_ndarray (X : ndarray) : result Z :=
  match X with
  | Arr0 _ => Raise (TypeError len_of_unsized_object)
  | Arr1 a => Ok (len a)
  end.

(** ** The class [MADRID] *)

Record MADRID : Type := {
  min_length : Z;
  max_length : Z;
  split_psn : Z;
  step_size : Z
}.

(** [MADRID.__init__(min_length, max_length, step_size=1, split_psn=None)].
    The attributes are set in the order of the source; the object exists
    only when no statement raised. *)
Definition __init__ (min_length max_length : Z) (step_size : Z)
    (split_psn : option Z) : result MADRID :=
  if step_size <=? 0 then Raise (ValueError step_size_must_be_greater_than_0)
  else
    let split_psn' :=
      if truthy split_psn
      then match split_psn with Some s => s | None => 0 end
      else max_length + 1 in
    Ok {| min_length := min_length;
          max_length := max_length;
          split_psn := split_psn';
          step_size := step_size |}.

(** [MADRID._contains_constant_regions(self, X, sub_sequence_length)]. *)
Definition _contains_constant_regions (self : MADRID) (X : list Q)
    (sub_sequence_length : Z) : result bool :=
  let bool_vec := false in
  let constant_indices :=
    map (fun i => i + 1)
        (np_where (map (fun d => negb (Qeq_bool d 0)) (np_diff Qminus X))) in
  let constant_indices := [0] ++ constant_indices ++ [len X] in
  let constant_lengths := np_diff Z.sub constant_indices in
  result_bind (py_max constant_lengths) (fun constant_length =>
    let bool_vec :=
      if (sub_sequence_length <=? constant_length) || (np_var X <? 0.2)%float
      then true else bool_vec in
    Ok bool_vec).

(** [MADRID._dump_2_0(self, X)]: the body is [pass]. *)
Definition _dump_2_0 (self : MADRID) (X : list Q) : M value :=
  fun f => (f, Ok VNone).

(** The cost models of the runtime estimator. *)
Definition p_1_polynomial : list Q :=
  [ -4.66922312132205e-45; 1.54665628995475e-35; -1.29314859463985e-26;
    2.01592418847342e-18; -2.54253065977245e-11; 9.77027495487874e-05;
    -1.27055582771851e-05 ]%Q.
Definition p_2_polynomial : list Q :=
  [ -3.79100071825804e-42; 3.15547030055575e-33; -6.62877819318290e-25;
    2.59437174380763e-17; -8.10970871564789e-11; 7.25344313152170e-05;
    4.68415490390476e-07 ]%Q.
Definition p_1_linear : list Q := [ 3.90752957831437e-05; 0 ]%Q.
Definition p_2_linear : list Q := [ 1.94005690535588e-05; 0 ]%Q.
Definition p_4_linear : list Q := [ 1.26834880558841e-05; 0 ]%Q.
Definition p_8_linear : list Q := [ 1.42210521045333e-05; 0 ]%Q.
Definition p_16_linear : list Q := [ 1.82290885539705e-05; 0 ]%Q.

(** The same two degree-6 models and Horner's scheme in IEEE binary64: the
    literals are rounded to the nearest double, as Python reads them. *)
#[warnings="-inexact-float"]
Definition p_1_polynomial_binary64 : list float :=
  [ -4.66922312132205e-45; 1.54665628995475e-35; -1.29314859463985e-26;
    2.01592418847342e-18; -2.54253065977245e-11; 9.77027495487874e-05;
    -1.27055582771851e-05 ]%float.
#[warnings="-inexact-float"]
Definition p_2_polynomial_binary64 : list float :=
  [ -3.79100071825804e-42; 3.15547030055575e-33; -6.62877819318290e-25;
    2.59437174380763e-17; -8.10970871564789e-11; 7.25344313152170e-05;
    4.68415490390476e-07 ]%float.
Definition polyval_binary64 (p : list float) (x : float) : float :=
  fold_left (fun y pv => y * x + pv)%float p 0%float.

(** The expression the estimator evaluates once for the regime test and
    once per prediction:
    [len(range(1, len_x - self.split_psn, factor))
     * len(range(math.ceil(self.min_length / factor),
                 math.ceil(self.max_length / factor), self.step_size))]. *)
Definition problem_size (self : MADRID) (len_x factor : Z) : result Z :=
  result_bind (len_range 1 (len_x - split_psn self) factor) (fun positions =>
  result_bind (truediv (min_length self) factor) (fun lo =>
  result_bind (truediv (max_length self) factor) (fun hi =>
  result_bind (len_range (ceil lo) (ceil hi) (step_size self)) (fun lengths =>
  Ok (positions * lengths))))).

Open Scope py_scope.

(** [MADRID._estimate_processing_time(self, len_x)].  The body ends
    without a [return] statement: the call evaluates to [None] and the
    predictions stay in the frame. *)
Definition _estimate_processing_time (self : MADRID) (len_x : Z) : M value :=
  "factor" ::= VInt 1 ;;
  size <- lift (problem_size self len_x 1) ;;
  let '(p_1, p_2) :=
    if size <? 5000000
    then (p_1_polynomial, p_2_polynomial)   (* polynomial model (of order 6) *)
    else (p_1_linear, p_2_linear) in        (* linear model *)
  "p_1" ::= VList p_1 ;;
  "p_2" ::= VList p_2 ;;
  "p_4" ::= VList p_4_linear ;;
  "p_8" ::= VList p_8_linear ;;
  "p_16" ::= VList p_16_linear ;;
  "factor" ::= VInt 16 ;;
  size <- lift (problem_size self len_x 16) ;;
  "predicted_execution_time_16" ::= VFloat (Fin (polyval p_16_linear (inject_Z size))) ;;
  "factor" ::= VInt 8 ;;
  size <- lift (problem_size self len_x 8) ;;
  "predicted_execution_time_8" ::= VFloat (Fin (polyval p_8_linear (inject_Z size))) ;;
  "factor" ::= VInt 4 ;;
  size <- lift (problem_size self len_x 4) ;;
  "predicted_execution_time_4" ::= VFloat (Fin (polyval p_4_linear (inject_Z size))) ;;
  "factor" ::= VInt 2 ;;
  size <- lift (problem_size self len_x 2) ;;
  "predicted_execution_time_2" ::= VFloat (Fin (polyval p_2 (inject_Z size))) ;;
  "factor" ::= VInt 1 ;;
  size <- lift (problem_size self len_x 1) ;;
  "predicted_execution_time_1" ::= VFloat (Fin (polyval p_1 (inject_Z size))) ;;
  ret VNone.

(** A call [self._estimate_processing_time(args...)] of the bound method:
    [self] is passed implicitly, so the definition, which takes two
    positional parameters, accepts exactly one explicit argument.  The
    callee runs in a frame of its own. *)
Definition call__estimate_processing_time (self : MADRID) (args : list value)
    : M value :=
  match args with
  | [VInt len_x] => lift (outcome (_estimate_processing_time self len_x))
  | [_] => raise (TypeError unsupported_operand_types)
  | _ => raise (TypeError (takes_positional_arguments_but_were_given
                             2 (1 + len args)))
  end.

(** [MADRID._predict(self, X, factor=None, estimate_time=False)].  The body
    ends after the assignment to [m], without a [return] statement. *)
Definition _predict (self : MADRID) (X : list Q) (factor : option Z)
    (estimate_time : bool) : M value :=
  (if estimate_time && truthy factor
   then raise (ValueError You_cannot_set_both_parameters) else ret tt) ;;
  (if len X <? min_length self
   then raise (ValueError (Series_length_of_X_is_less_than_min_length
                             (len X) (min_length self)))
   else ret tt) ;;
  degenerate <- lift (_contains_constant_regions self X (min_length self)) ;;
  (if degenerate : bool
   then raise (ValueError BREAK_constant_region) else ret tt) ;;
  let X := squeeze X in
  len_x <- lift (len_ndarray X) ;;
  "len_x" ::= VInt len_x ;;
  "bfs_seed" ::= VFloat NegInf ;;
  "k" ::= VInt 1 ;;
  "time_bf" ::= VInt 0 ;;
  (if estimate_time
   then call__estimate_processing_time self [VSelf; VInt len_x]
   else ret VNone) ;;
  rows <- lift (truediv (max_length self + 1 - min_length self) (step_size self)) ;;
  let num_rows := ceil rows in
  "num_rows" ::= VInt num_rows ;;
  num_cols <- lift (len_ndarray X) ;;
  "num_cols" ::= VInt num_cols ;;
  multilength_discord_table <- lift (np_full num_rows num_cols NegInf) ;;
  "multilength_discord_table" ::= VArray2 multilength_discord_table ;;
  bsf <- lift (np_full num_rows 1 (Fin 0)) ;;
  "bsf" ::= VArray2 bsf ;;
  bsf_loc <- lift (np_full num_rows 1 NaN) ;;
  "bsf_loc" ::= VArray2 bsf_loc ;;
  m_set <- lift (np_arange (min_length self) (max_length self + 1) (step_size self)) ;;
  "m_set" ::= VArrayInt m_set ;;
  half <- lift (truediv (len m_set) 2) ;;
  let m_pointer := ceil half in
  "m_pointer" ::= VInt m_pointer ;;
  m <- lift (getitem m_set m_pointer) ;;
  "m" ::= VInt m ;;
  ret VNone.

(** Detection as a caller runs it: construct the detector, then predict. *)
Definition detect (min_length max_length step_size : Z) (split_psn : option Z)
    (X : list Q) (factor : option Z) (estimate_time : bool)
    : frame * result value :=
  match __init__ min_length max_length step_size split_psn with
  | Ok self => run (_predict self X factor estimate_time)
  | Raise e => ([], Raise e)
  end.

(** The error taxonomy of the specification, read off the raise sites:
    every one of them raises Python's [ValueError]; the message tells the
    classes apart. *)
Inductive error_class : Type :=
| ConfigurationError
| DataTooShortError
| DegenerateRegionError.

Definition classify (e : exception) : option error_class :=
  match e with
  | ValueError step_size_must_be_greater_than_0 => Some ConfigurationError
  | ValueError You_cannot_set_both_parameters => Some ConfigurationError
  | ValueError (Series_length_of_X_is_less_than_min_length _ _) =>
      Some DataTooShortError
  | ValueError BREAK_constant_region => Some DegenerateRegionError
  | _ => None
  end.

(** The discord search works on the Discord Table: it has begun once the
    table is bound in the frame. *)
Definition search_begun (f : frame) : bool :=
  match lookup "multilength_discord_table" f with
  | Some _ => true
  | None => false
  end.

(** ** Notions of the specification *)

(** A run of [k] unchanged consecutive values of the series: a segment of
    [k] consecutive positions all holding the same value. *)
Definition constant_run (X : list Q) (k : nat) : Prop :=
  exists pre seg post v,
    X = pre ++ seg ++ post /\ List.length seg = k /\ Forall (Qeq v) seg.

(** [k] is the length of the maximal run of unchanged consecutive values. *)
Definition maximal_run (X : list Q) (k : nat) : Prop :=
  constant_run X k /\ forall k', constant_run X k' -> (k' <= k)%nat.

(** [np.var(X)], as computed in binary64, compares below 0.2. *)
Definition variance_test (X : list Q) : bool := (np_var X <? 0.2)%float.

Definition variance_below (X : list Q) : Prop := variance_test X = true.

(** The variance of the values of the series, without rounding, is below
    [c]. *)
Definition exact_variance_below (X : list Q) (c : Q) : Prop :=
  exists v, exact_variance X = Some v /\ (v < c)%Q.

(** [n] is the count of the integers [a, a + s, a + 2 s, ...] that lie in
    [[a, b)]: the count of integers in [[a, b)] stepped by [s]. *)
Definition count_stepped (a b s n : Z) : Prop :=
  0 <= n /\ forall i, 0 <= i -> (i < n <-> a + i * s < b).

(** [c] is the ceiling of [a / f], for a positive [f]. *)
Definition ceiling_of (a f c : Z) : Prop := f * (c - 1) < a <= f * c.

(** [s] is the problem size at factor [f]: right-region start positions
    times candidate lengths. *)
Definition is_problem_size (self : MADRID) (N f s : Z) : Prop :=
  exists positions lo hi lengths,
    count_stepped 1 (N - split_psn self) f positions /\
    ceiling_of (min_length self) f lo /\
    ceiling_of (max_length self) f hi /\
    count_stepped lo hi (step_size self) lengths /\
    s = positions * lengths.

(** The estimator's two divisions by the factor [f] are exact in
    binary64: the quotients of the two lengths by [f] are doubles, so that
    rounding to the nearest double returns them unchanged. *)
Definition division_is_exact (self : MADRID) (f : Z) : Prop :=
  exists lo hi,
    truediv (min_length self) f = Ok lo /\ (binary64_value lo == lo)%Q /\
    truediv (max_length self) f = Ok hi /\ (binary64_value hi == hi)%Q.

(** The prediction the estimator leaves in its frame for a factor. *)
Definition prediction_name (factor : Z) : string :=
  match factor with
  | 1 => "predicted_execution_time_1"
  | 2 => "predicted_execution_time_2"
  | 4 => "predicted_execution_time_4"
  | 8 => "predicted_execution_time_8"
  | 16 => "predicted_execution_time_16"
  | _ => ""
  end.

Definition predicted_execution_time (self : MADRID) (len_x factor : Z)
    : option Q :=
  match lookup (prediction_name factor)
               (frame_of (_estimate_processing_time self len_x)) with
  | Some (VFloat (Fin t)) => Some t
  | _ => None
  end.

(** The series 0, 1, 0, 1, ... (read from the right), used as a concrete
    non-degenerate input. *)
Fixpoint alternating (n : nat) : list Q :=
  match n with
  | O => []
  | S n' => (if Nat.even n' then 0%Q else 1%Q) :: alternating n'
  end.

(** ** Auxiliary notions of the proofs *)

(** The run lengths of a non-empty series [x :: tl], scanned left to
    right; [cur] counts the values of the current run seen so far. *)
Fixpoint runs_from (cur : Z) (x : Q) (tl : list Q) : list Z :=
  match tl with
  | [] => [cur]
  | y :: tl' =>
      if Qeq_bool (y - x) 0 then runs_from (cur + 1) y tl'
      else cur :: runs_from 1 y tl'
  end.

(** [k] further values after [x] repeat [x]. *)
Definition prefix_run (x : Q) (tl : list Q) (k : nat) : Prop :=
  exists seg post, tl = seg ++ post /\ List.length seg = k /\ Forall (Qeq x) seg.

(** The value bound to [constant_length] in [_contains_constant_regions]. *)
Definition constant_length_of (X : list Q) : result Z :=
  py_max
    (np_diff Z.sub
       ([0] ++
        map (fun i => i + 1)
            (np_where (map (fun d => negb (Qeq_bool d 0)) (np_diff Qminus X)))
        ++ [len X])).

(** The outcome is one of the errors of the specification's taxonomy. *)
Definition guard_error (r : result value) : bool :=
  match r with
  | Raise e => match classify e with Some _ => true | None => false end
  | Ok _ => false
  end.

(** The list held by a frame entry. *)
Definition unlist (o : option value) : list Q :=
  match o with Some (VList l) => l | _ => [] end.

(** Whatever a computation returns satisfies [P]. *)
Definition returns_only {A} (P : A -> Prop) (c : M A) : Prop :=
  forall f, match snd (c f) with Ok a => P a | Raise _ => True end.

(** The list bound to [constant_lengths] in [_contains_constant_regions]. *)
Definition constant_lengths_of (X : list Q) : list Z :=
  np_diff Z.sub
    ([0] ++
     map (fun i => i + 1)
         (np_where (map (fun d => negb (Qeq_bool d 0)) (np_diff Qminus X)))
     ++ [len X]).





(** The estimator predicts [q] seconds for a factor. *)
Definition predicts (self : MADRID) (len_x factor : Z) (q : Q) : Prop :=
  exists t, predicted_execution_time self len_x factor = Some t /\ (t == q)%Q.

Close Scope py_scope.

(** * Properties *)

(** ** The constructor *)

Section Constructor.

Variables (min_len max_len step : Z).

Lemma init_ok (split : option Z) :
  0 < step ->
  __init__ min_len max_len step split =
  Ok {| min_length := min_len; max_length := max_len;
        split_psn := if truthy split
                     then match split with Some s => s | None => 0 end
                     else max_len + 1;
        step_size := step |}.
Proof.
  intros Hstep. unfold __init__.
  destruct (Z.leb_spec step 0) as [Hle | _]; [lia | reflexivity].
Qed.

Lemma init_step_size_positive (split : option Z) (self : MADRID) :
  __init__ min_len max_len step split = Ok self -> 0 < step_size self.
Proof.
  unfold __init__.
  destruct (Z.leb_spec step 0) as [Hle | Hgt]; [discriminate |].
  intros H. injection H as <-. exact Hgt.
Qed.

End Constructor.

(** C6. A step size that is zero or negative makes the constructor raise
    the step-size [ValueError] (a configuration error), whatever the
    other parameters are; no detector exists, so detection ends with that
    error on an empty frame, before the Discord Table is allocated. *)
Theorem step_size_not_positive_raises :
  forall min_len max_len step split X factor estimate_time,
    step <= 0 ->
    __init__ min_len max_len step split
      = Raise (ValueError step_size_must_be_greater_than_0) /\
    classify (ValueError step_size_must_be_greater_than_0)
      = Some ConfigurationError /\
    detect min_len max_len step split X factor estimate_time
      = ([], Raise (ValueError step_size_must_be_greater_than_0)) /\
    search_begun (fst (detect min_len max_len step split X factor estimate_time))
      = false.
Proof.
  intros min_len max_len step split X factor estimate_time Hstep.
  assert (Hinit : __init__ min_len max_len step split
                  = Raise (ValueError step_size_must_be_greater_than_0)).
  { unfold __init__. destruct (Z.leb_spec step 0); [reflexivity | lia]. }
  unfold detect. rewrite Hinit. repeat split; reflexivity.
Qed.

Lemma step_size_not_positive_raises_witness :
  __init__ 30 70 0 (Some 100)
    = Raise (ValueError step_size_must_be_greater_than_0) /\
  detect 30 70 0 (Some 100) (alternating 200) None false
    = ([], Raise (ValueError step_size_must_be_greater_than_0)).
Proof.
  destruct (step_size_not_positive_raises
              30 70 0 (Some 100) (alternating 200) None false)
    as (H1 & _ & H3 & _).
  - lia.
  - split; [exact H1 | exact H3].
Defined.

(** C8. With [split_psn] unset the constructed detector has
    [split_psn = max_length + 1]; for [min_length = 50], [max_length = 50],
    [step_size = 1] that is 51. *)
Theorem split_psn_defaults_to_max_length_plus_1 :
  (forall min_len max_len step,
     0 < step ->
     exists self, __init__ min_len max_len step None = Ok self /\
                  split_psn self = max_len + 1) /\
  (exists self, __init__ 50 50 1 None = Ok self /\ split_psn self = 51).
Proof.
  split.
  - intros min_len max_len step Hstep. eexists. split.
    + apply init_ok. exact Hstep.
    + reflexivity.
  - eexists. split; reflexivity.
Qed.

Lemma split_psn_defaults_to_max_length_plus_1_witness :
  exists self, __init__ 30 70 10 None = Ok self /\ split_psn self = 70 + 1.
Proof.
  apply (proj1 split_psn_defaults_to_max_length_plus_1 30 70 10). lia.
Defined.

(** C10. An explicit [split_psn = 0] is falsy: the constructor behaves
    exactly as with [split_psn] unset and stores [max_length + 1]; a
    non-zero [split_psn] is kept as given. *)
Theorem falsy_split_psn_is_replaced :
  forall min_len max_len step,
    __init__ min_len max_len step (Some 0) = __init__ min_len max_len step None /\
    (0 < step ->
     (exists self, __init__ min_len max_len step (Some 0) = Ok self /\
                   split_psn self = max_len + 1) /\
     (forall s, s <> 0 ->
        exists self, __init__ min_len max_len step (Some s) = Ok self /\
                     split_psn self = s)).
Proof.
  intros min_len max_len step. split; [reflexivity |].
  intros Hstep. split.
  - eexists. split; [apply init_ok; exact Hstep | reflexivity].
  - intros s Hs. eexists. split; [apply init_ok; exact Hstep |].
    simpl. destruct (Z.eqb_spec s 0); [contradiction | reflexivity].
Qed.

Lemma falsy_split_psn_is_replaced_witness :
  (exists self, __init__ 30 70 10 (Some 0) = Ok self /\ split_psn self = 71) /\
  (exists self, __init__ 30 70 10 (Some 5) = Ok self /\ split_psn self = 5).
Proof.
  destruct (falsy_split_psn_is_replaced 30 70 10) as [_ H].
  destruct H as [H0 Hs]; [lia |].
  split; [exact H0 | apply Hs; lia].
Defined.

(** ** The flat-region test *)

Lemma diff_is_zero (x y : Q) : Qeq_bool (y - x) 0 = true <-> (x == y)%Q.
Proof.
  rewrite Qeq_bool_iff. split; intros H.
  - symmetry. lra.
  - lra.
Qed.

Lemma np_diff_cons {A} (sub : A -> A -> A) (a b : A) (l : list A) :
  np_diff sub (a :: b :: l) = sub b a :: np_diff sub (b :: l).
Proof. reflexivity. Qed.

(** The change-point computation of the source yields the run lengths. *)
Lemma change_points_runs (tl : list Q) :
  forall x start off,
    np_diff Z.sub
      (start ::
       map (fun i => i + 1)
           (np_where_from off
              (map (fun d => negb (Qeq_bool d 0)) (np_diff Qminus (x :: tl))))
       ++ [off + len (x :: tl)])
    = runs_from (off + 1 - start) x tl.
Proof.
  induction tl as [| y tl' IH]; intros x start off.
  - reflexivity.
  - assert (Hlen : off + len (x :: y :: tl') = off + 1 + len (y :: tl')).
    { unfold len. simpl List.length. lia. }
    rewrite Hlen.
    rewrite (np_diff_cons Qminus x y tl').
    cbn [map np_where_from runs_from].
    destruct (Qeq_bool (y - x) 0); cbn [negb].
    + rewrite IH. f_equal. lia.
    + cbn [map app]. rewrite np_diff_cons, IH. f_equal. f_equal. lia.
Qed.

Lemma prefix_run_0 (x : Q) (tl : list Q) : prefix_run x tl 0.
Proof. exists [], tl. repeat split. constructor. Qed.

Lemma prefix_run_cons (x y : Q) (tl : list Q) (k : nat) :
  (x == y)%Q -> prefix_run y tl k -> prefix_run x (y :: tl) (S k).
Proof.
  intros Hxy (seg & post & -> & Hk & Hall).
  exists (y :: seg), post. repeat split.
  - simpl. now rewrite Hk.
  - constructor; [exact Hxy |].
    eapply Forall_impl; [| exact Hall].
    intros z Hz. now rewrite Hxy.
Qed.

Lemma prefix_run_inv (x y : Q) (tl : list Q) (k : nat) :
  prefix_run x (y :: tl) (S k) -> (x == y)%Q /\ prefix_run y tl k.
Proof.
  intros (seg & post & Heq & Hk & Hall).
  destruct seg as [| z seg']; [discriminate |].
  simpl in Heq. injection Heq as <- ->.
  inversion Hall as [| ? ? Hxy Hall']; subst.
  split; [exact Hxy |].
  exists seg', post. repeat split.
  - simpl in Hk. lia.
  - eapply Forall_impl; [| exact Hall'].
    intros z Hz. now rewrite <- Hxy.
Qed.

Lemma constant_run_cons (x : Q) (tl : list Q) (k : nat) :
  constant_run tl k -> constant_run (x :: tl) k.
Proof.
  intros (pre & seg & post & v & -> & Hk & Hall).
  exists (x :: pre), seg, post, v. repeat split; assumption.
Qed.

Lemma constant_run_of_prefix (x : Q) (tl : list Q) (k : nat) :
  prefix_run x tl k -> constant_run (x :: tl) (S k).
Proof.
  intros (seg & post & -> & Hk & Hall).
  exists [], (x :: seg), post, x. repeat split.
  - simpl. now rewrite Hk.
  - constructor; [reflexivity | exact Hall].
Qed.

(** A run of a non-empty series starts at its head or lies in its tail. *)
Lemma constant_run_inv (x : Q) (tl : list Q) (k : nat) :
  constant_run (x :: tl) k ->
  k = 0%nat \/ (exists k', k = S k' /\ prefix_run x tl k') \/ constant_run tl k.
Proof.
  intros (pre & seg & post & v & Heq & Hk & Hall).
  destruct pre as [| p pre'].
  - destruct seg as [| z seg']; [left; simpl in Hk; lia |].
    right; left. simpl in Heq. injection Heq as <- ->.
    inversion Hall as [| ? ? Hvx Hall']; subst.
    exists (List.length seg'). split; [reflexivity |].
    exists seg', post. repeat split.
    eapply Forall_impl; [| exact Hall'].
    intros z Hz. now rewrite <- Hvx.
  - right; right. simpl in Heq. injection Heq as <- ->.
    exists pre', seg, post, v. repeat split; assumption.
Qed.

(** Every computed run length is the length of a run. *)
Lemma runs_from_sound (tl : list Q) :
  forall x cur r,
    In r (runs_from cur x tl) ->
    (exists k, r = cur + Z.of_nat k /\ prefix_run x tl k) \/
    (exists k, r = Z.of_nat k /\ constant_run tl k).
Proof.
  induction tl as [| y tl' IH]; intros x cur r Hin.
  - simpl in Hin. destruct Hin as [<- | []].
    left. exists 0%nat. split; [simpl; lia | apply prefix_run_0].
  - simpl in Hin. destruct (Qeq_bool (y - x) 0) eqn:Hd.
    + apply diff_is_zero in Hd.
      destruct (IH _ _ _ Hin) as [(k & -> & Hk) | (k & -> & Hk)].
      * left. exists (S k). split; [lia | now apply prefix_run_cons].
      * right. exists k. split; [reflexivity | now apply constant_run_cons].
    + destruct Hin as [<- | Hin].
      * left. exists 0%nat. split; [simpl; lia | apply prefix_run_0].
      * right. destruct (IH _ _ _ Hin) as [(k & -> & Hk) | (k & -> & Hk)].
        -- exists (S k). split; [lia | now apply constant_run_of_prefix].
        -- exists k. split; [reflexivity | now apply constant_run_cons].
Qed.

(** Every run is covered by a computed run length. *)
Lemma runs_from_prefix_complete (tl : list Q) :
  forall x cur k,
    prefix_run x tl k ->
    exists r, In r (runs_from cur x tl) /\ cur + Z.of_nat k <= r.
Proof.
  induction tl as [| y tl' IH]; intros x cur k Hk.
  - destruct Hk as (seg & post & Heq & Hlen & _).
    destruct seg; [| discriminate]. simpl in Hlen. subst k.
    exists cur. split; [left; reflexivity | simpl; lia].
  - simpl. destruct k as [| k'].
    + destruct (Qeq_bool (y - x) 0).
      * destruct (IH y (cur + 1) 0%nat (prefix_run_0 _ _)) as (r & Hin & Hle).
        exists r. split; [exact Hin | simpl in *; lia].
      * exists cur. split; [left; reflexivity | simpl; lia].
    + apply prefix_run_inv in Hk. destruct Hk as [Hxy Hk].
      apply diff_is_zero in Hxy. rewrite Hxy.
      destruct (IH y (cur + 1) k' Hk) as (r & Hin & Hle).
      exists r. split; [exact Hin | lia].
Qed.

Lemma runs_from_complete (tl : list Q) :
  forall x cur k,
    0 <= cur ->
    constant_run tl k ->
    exists r, In r (runs_from cur x tl) /\ Z.of_nat k <= r.
Proof.
  induction tl as [| y tl' IH]; intros x cur k Hcur Hk.
  - destruct Hk as (pre & seg & post & v & Heq & Hlen & _).
    destruct pre; [| discriminate]. destruct seg; [| discriminate].
    simpl in Hlen. subst k. exists cur. split; [left; reflexivity | simpl; lia].
  - apply constant_run_inv in Hk.
    destruct Hk as [-> | [(k' & -> & Hk) | Hk]].
    + destruct (runs_from_prefix_complete (y :: tl') x cur 0 (prefix_run_0 _ _))
        as (r & Hin & Hle).
      exists r. split; [exact Hin | simpl in *; lia].
    + simpl. destruct (Qeq_bool (y - x) 0).
      * destruct (runs_from_prefix_complete tl' y (cur + 1) k' Hk)
          as (r & Hin & Hle).
        exists r. split; [exact Hin | lia].
      * destruct (runs_from_prefix_complete tl' y 1 k' Hk) as (r & Hin & Hle).
        exists r. split; [right; exact Hin | lia].
    + simpl. destruct (Qeq_bool (y - x) 0).
      * apply IH; [lia | exact Hk].
      * destruct (IH y 1 k ltac:(lia) Hk) as (r & Hin & Hle).
        exists r. split; [right; exact Hin | exact Hle].
Qed.

Lemma fold_max_bounds (l : list Z) :
  forall x, let m := fold_left Z.max l x in
            In m (x :: l) /\ forall r, In r (x :: l) -> r <= m.
Proof.
  induction l as [| y l IH]; intros x; simpl.
  - split; [left; reflexivity |]. intros r [<- | []]. lia.
  - destruct (IH (Z.max x y)) as [Hin Hub].
    set (m := fold_left Z.max l (Z.max x y)) in *. split.
    + destruct Hin as [Hin | Hin]; [| right; right; exact Hin].
      destruct (Z.max_spec x y) as [[_ E] | [_ E]].
      * right; left. lia.
      * left. lia.
    + intros r [<- | [<- | Hr]].
      * specialize (Hub (Z.max x y) (or_introl eq_refl)). lia.
      * specialize (Hub (Z.max x y) (or_introl eq_refl)). lia.
      * apply Hub. right. exact Hr.
Qed.

(** The maximum of the run lengths between change-points is the length of
    the maximal run of unchanged consecutive values. *)
Lemma constant_length_is_maximal_run (X : list Q) :
  exists k, constant_length_of X = Ok (Z.of_nat k) /\ maximal_run X k.
Proof.
  destruct X as [| x tl].
  - exists 0%nat. split; [reflexivity |]. split.
    + exists [], [], [], 0%Q. repeat split. constructor.
    + intros k' (pre & seg & post & v & Heq & Hlen & _).
      destruct pre; [| discriminate]. destruct seg; [| discriminate].
      simpl in Hlen. lia.
  - unfold constant_length_of, np_where. cbn [app].
    replace (len (x :: tl)) with (0 + len (x :: tl)) by lia.
    rewrite change_points_runs. cbn [Z.add Z.sub Z.opp Z.pos_sub].
    destruct (runs_from 1 x tl) as [| r0 rs] eqn:Hruns.
    { destruct tl as [| y tl']; simpl in Hruns; [discriminate |].
      destruct (Qeq_bool (y - x) 0); [| discriminate].
      destruct (runs_from_prefix_complete tl' y 2 0 (prefix_run_0 _ _))
        as (r & Hin & _).
      simpl in Hruns. rewrite Hruns in Hin. destruct Hin. }
    unfold py_max.
    destruct (fold_max_bounds rs r0) as [Hin Hub].
    rewrite <- Hruns in Hin, Hub.
    assert (Hrun : exists k, fold_left Z.max rs r0 = Z.of_nat k /\
                             constant_run (x :: tl) k).
    { destruct (runs_from_sound tl x 1 _ Hin) as [(k & E & Hk) | (k & E & Hk)].
      - exists (S k). split; [lia | now apply constant_run_of_prefix].
      - exists k. split; [exact E | now apply constant_run_cons]. }
    destruct Hrun as (k & E & Hk). exists k. split; [now rewrite E |].
    split; [exact Hk |].
    intros k' Hk'. apply constant_run_inv in Hk'.
    destruct Hk' as [-> | [(k'' & -> & Hk') | Hk']].
    + lia.
    + destruct (runs_from_prefix_complete tl x 1 k'' Hk') as (r & Hr & Hle).
      specialize (Hub r Hr). lia.
    + destruct (runs_from_complete tl x 1 k' ltac:(lia) Hk') as (r & Hr & Hle).
      specialize (Hub r Hr). lia.
Qed.

(** ** The input guard *)

Lemma contains_constant_regions_unfold (self : MADRID) (X : list Q) (m : Z) :
  _contains_constant_regions self X m =
  result_bind (constant_length_of X) (fun constant_length =>
    Ok ((m <=? constant_length) || variance_test X)).
Proof.
  unfold _contains_constant_regions, constant_length_of, variance_test.
  destruct (py_max _) as [c | e]; [| reflexivity].
  cbn [result_bind]. now destruct ((m <=? c) || (np_var X <? 0.2)%float).
Qed.

Lemma contains_constant_regions_spec (self : MADRID) (X : list Q) (m : Z) :
  exists k,
    maximal_run X k /\
    _contains_constant_regions self X m =
    Ok ((m <=? Z.of_nat k) || variance_test X).
Proof.
  destruct (constant_length_is_maximal_run X) as (k & Hc & Hk).
  exists k. split; [exact Hk |].
  rewrite contains_constant_regions_unfold, Hc. reflexivity.
Qed.

Lemma maximal_run_unique (X : list Q) (k k' : nat) :
  maximal_run X k -> maximal_run X k' -> k = k'.
Proof.
  intros [Hk Hmax] [Hk' Hmax'].
  specialize (Hmax _ Hk'). specialize (Hmax' _ Hk). lia.
Qed.

(** The condition under which the flat-region test answers [True]. *)
Lemma contains_constant_regions_iff (self : MADRID) (X : list Q) (m : Z) :
  exists b,
    _contains_constant_regions self X m = Ok b /\
    (b = true <->
     (exists k, maximal_run X k /\ m <= Z.of_nat k) \/ variance_below X).
Proof.
  destruct (contains_constant_regions_spec self X m) as (k & Hk & E).
  eexists. split; [exact E |].
  unfold variance_below. rewrite orb_true_iff, Z.leb_le. split.
  - intros [H | H]; [left; exists k; split; assumption | right; exact H].
  - intros [(k' & Hk' & H) | H]; [left | right; exact H].
    now rewrite (maximal_run_unique X k k').
Qed.

(** A series that passes the length check and the flat-region test has at
    least two values, so [X.squeeze()] keeps it one-dimensional. *)
Lemma guards_pass_len (self : MADRID) (X : list Q) :
  min_length self <= len X ->
  _contains_constant_regions self X (min_length self) = Ok false ->
  len_ndarray (squeeze X) = Ok (len X).
Proof.
  intros Hlen Hflat.
  destruct (contains_constant_regions_spec self X (min_length self))
    as (k & [Hk Hmax] & E).
  rewrite E in Hflat. injection Hflat as Hflat.
  apply orb_false_iff in Hflat. destruct Hflat as [Hflat _].
  apply Z.leb_gt in Hflat.
  destruct X as [| x [| y tl]]; [| | reflexivity]; exfalso.
  - unfold len in Hlen. simpl in Hlen. lia.
  - assert (H1 : (1 <= k)%nat).
    { apply Hmax. exists [], [x], [], x. repeat split.
      constructor; [reflexivity | constructor]. }
    unfold len in Hlen. simpl in Hlen. lia.
Qed.

Ltac run_predict :=
  unfold run, outcome, frame_of, _predict, bind, ret, raise, lift, assign.

(** C7. A series shorter than [min_length], given to a call that passes
    the check of the two optional knobs (the default call does), makes
    [_predict] raise the series-length [ValueError] (a data-too-short
    error) on an empty frame: no Discord Table has been allocated. *)
Theorem too_short_series_raises :
  forall self X factor estimate_time,
    estimate_time && truthy factor = false ->
    len X < min_length self ->
    let e := ValueError (Series_length_of_X_is_less_than_min_length
                           (len X) (min_length self)) in
    run (_predict self X factor estimate_time) = ([], Raise e) /\
    classify e = Some DataTooShortError /\
    search_begun (frame_of (_predict self X factor estimate_time)) = false /\
    lookup "multilength_discord_table"
           (frame_of (_predict self X factor estimate_time)) = None.
Proof.
  intros self X factor estimate_time Hknobs Hlen e.
  assert (Hrun : run (_predict self X factor estimate_time) = ([], Raise e)).
  { run_predict. rewrite Hknobs.
    destruct (Z.ltb_spec (len X) (min_length self)); [reflexivity | lia]. }
  unfold frame_of. rewrite Hrun. repeat split; reflexivity.
Qed.

Lemma too_short_series_raises_witness :
  run (_predict {| min_length := 5; max_length := 8; split_psn := 9;
                   step_size := 1 |}
                (alternating 4) None false)
  = ([], Raise (ValueError (Series_length_of_X_is_less_than_min_length 4 5))).
Proof.
  apply (too_short_series_raises
           {| min_length := 5; max_length := 8; split_psn := 9; step_size := 1 |}
           (alternating 4) None false).
  - reflexivity.
  - vm_compute. reflexivity.
Defined.

Lemma predict_past_guard (self : MADRID) (X : list Q) (factor : option Z)
    (estimate_time : bool) :
  estimate_time && truthy factor = false ->
  min_length self <= len X ->
  _contains_constant_regions self X (min_length self) = Ok false ->
  guard_error (outcome (_predict self X factor estimate_time)) = false.
Proof.
  intros Hknobs Hlen Hflat.
  pose proof (guards_pass_len self X Hlen Hflat) as Hsq.
  run_predict. rewrite Hknobs, Hflat, Hsq.
  destruct (Z.ltb_spec (len X) (min_length self)) as [Hlt | _]; [lia |].
  cbn [fst snd]. unfold call__estimate_processing_time, raise, ret.
  destruct estimate_time; [reflexivity |].
  cbn [fst snd].
  destruct (truediv (max_length self + 1 - min_length self) (step_size self))
    as [rows | e] eqn:Hrows.
  2:{ unfold truediv in Hrows. destruct (step_size self =? 0); [| discriminate].
      injection Hrows as <-. reflexivity. }
  destruct (np_full (ceil rows) (len X) NegInf) as [tbl | e] eqn:Htbl.
  2:{ unfold np_full in Htbl.
      destruct ((ceil rows <? 0) || (len X <? 0)); [| discriminate].
      injection Htbl as <-. reflexivity. }
  destruct (np_full (ceil rows) 1 (Fin 0)) as [b | e] eqn:Hb.
  2:{ unfold np_full in Hb.
      destruct ((ceil rows <? 0) || (1 <? 0)); [| discriminate].
      injection Hb as <-. reflexivity. }
  destruct (np_full (ceil rows) 1 NaN) as [bl | e] eqn:Hbl.
  2:{ unfold np_full in Hbl.
      destruct ((ceil rows <? 0) || (1 <? 0)); [| discriminate].
      injection Hbl as <-. reflexivity. }
  destruct (np_arange (min_length self) (max_length self + 1) (step_size self))
    as [m_set | e] eqn:Hset.
  2:{ unfold np_arange, truediv in Hset.
      destruct (step_size self =? 0); [| discriminate].
      injection Hset as <-. reflexivity. }
  unfold truediv. cbn [Z.eqb].
  destruct (getitem m_set _) as [m | e] eqn:Hm; [reflexivity |].
  unfold getitem in Hm.
  match type of Hm with (if ?c then _ else _) = _ => destruct c end;
    [| discriminate].
  injection Hm as <-. reflexivity.
Qed.

(** C4, as the code has it.  For a series at least [min_length] long,
    given to a call that passes the check of the two optional knobs (the
    default call does), [_predict] raises the constant-region [ValueError]
    (a degenerate-region error) exactly when the maximal run of unchanged
    consecutive values is at least [min_length] long or [np.var(X)], as it
    is computed in binary64, compares below 0.2.  The error leaves an
    empty frame (no Discord Table yet), and the length the flat-region
    test compares with [min_length], the maximum of the run lengths
    between the change-points with both series boundaries added, is the
    length of the maximal run. *)
Theorem degenerate_region_raises_iff :
  forall self X factor estimate_time,
    estimate_time && truthy factor = false ->
    min_length self <= len X ->
    let degenerate :=
      (exists k, maximal_run X k /\ min_length self <= Z.of_nat k) \/
      variance_below X in
    let e := ValueError BREAK_constant_region in
    (outcome (_predict self X factor estimate_time) = Raise e <-> degenerate) /\
    (degenerate -> run (_predict self X factor estimate_time) = ([], Raise e)) /\
    classify e = Some DegenerateRegionError /\
    (exists k, constant_length_of X = Ok (Z.of_nat k) /\ maximal_run X k) /\
    _contains_constant_regions self X (min_length self) =
      result_bind (constant_length_of X) (fun constant_length =>
        Ok ((min_length self <=? constant_length) || (np_var X <? 0.2)%float)).
Proof.
  intros self X factor estimate_time Hknobs Hlen degenerate e.
  destruct (contains_constant_regions_iff self X (min_length self))
    as (b & Hb & Hiff).
  fold degenerate in Hiff.
  assert (Hraise : degenerate ->
                   run (_predict self X factor estimate_time) = ([], Raise e)).
  { intros Hd. apply Hiff in Hd. subst b.
    run_predict. rewrite Hknobs, Hb.
    destruct (Z.ltb_spec (len X) (min_length self)); [lia | reflexivity]. }
  repeat split.
  - intros Hout. apply Hiff. destruct b; [reflexivity | exfalso].
    pose proof (predict_past_guard self X factor estimate_time Hknobs Hlen Hb)
      as Hpast.
    rewrite Hout in Hpast. discriminate.
  - intros Hd. unfold outcome. now rewrite (Hraise Hd).
  - exact Hraise.
  - apply constant_length_is_maximal_run.
  - apply contains_constant_regions_unfold.
Qed.

Lemma degenerate_region_raises_iff_witness :
  (outcome (_predict {| min_length := 3; max_length := 4; split_psn := 5;
                        step_size := 1 |}
                     [0; 5; 5; 5; 1; 7]%Q None false)
   = Raise (ValueError BREAK_constant_region)
   <-> (exists k, maximal_run [0; 5; 5; 5; 1; 7]%Q k /\ 3 <= Z.of_nat k) \/
       variance_below [0; 5; 5; 5; 1; 7]%Q).
Proof.
  apply (degenerate_region_raises_iff
           {| min_length := 3; max_length := 4; split_psn := 5; step_size := 1 |}
           [0; 5; 5; 5; 1; 7]%Q None false).
  - reflexivity.
  - vm_compute. discriminate.
Defined.

(** C4 as stated, with the variance of the values themselves, fails on
    the code.  The doubles 1.2, 0.8, 0.4, 0.0 have a variance below 0.2
    (below one fifth, and below the double 0.2) and no run of two equal
    values, but [np.var] returns the double 0.2 on them, which does not
    compare below 0.2: with [min_length = 2] the series is not rejected.
    The same four doubles in the opposite order are rejected: there
    [np.var] returns 0.19999999999999998. *)
Lemma degenerate_region_not_by_exact_variance :
  let self := {| min_length := 2; max_length := 3; split_psn := 4;
                 step_size := 1 |} in
  let X := map binary64_value [1.2; 0.8; 0.4; 0]%Q in
  let e := ValueError BREAK_constant_region in
  min_length self <= len X /\
  exact_variance_below X 0.2 /\
  exact_variance_below X (binary64_value 0.2) /\
  outcome (_predict self X None false) = Ok VNone /\
  ~ (outcome (_predict self X None false) = Raise e <->
     (exists k, maximal_run X k /\ min_length self <= Z.of_nat k) \/
     exact_variance_below X 0.2) /\
  outcome (_predict self (rev X) None false) = Raise e /\
  (np_var X =? 0.2)%float = true /\
  (np_var (rev X) =? 0.19999999999999998)%float = true.
Proof.
  intros self X e.
  assert (Hvar : exact_variance_below X 0.2).
  { eexists. split; [vm_compute; reflexivity | vm_compute; reflexivity]. }
  assert (Hout : outcome (_predict self X None false) = Ok VNone)
    by (vm_compute; reflexivity).
  split; [vm_compute; discriminate |].
  split; [exact Hvar |].
  split.
  { eexists. split; [vm_compute; reflexivity | vm_compute; reflexivity]. }
  split; [exact Hout |].
  split.
  { intros [_ H]. rewrite Hout in H.
    specialize (H (or_intror Hvar)). discriminate. }
  split; [vm_compute; reflexivity |].
  split; vm_compute; reflexivity.
Qed.

(** The conversion to binary64 agrees with the doubles the kernel reads
    from the same decimal literals. *)
Example binary64_reads_literals :
  forallb (fun '(q, f) => (binary64 q =? f)%float)
    [ (0.1%Q, 0.1%float); (0.2%Q, 0.2%float); (1.2%Q, 1.2%float);
      (0.8%Q, 0.8%float); (0.4%Q, 0.4%float); ((-2.5)%Q, (-2.5)%float);
      (1e17%Q, 1e17%float); (100000000000000001%Q, 1e17%float);
      (9007199254740993%Q, 9007199254740992%float);
      (4.9e-324%Q, 4.9e-324%float); (1.7976931348623157e308%Q,
                                     1.7976931348623157e308%float);
      (0.74949899799599196%Q, 0.74949899799599196%float) ]
  = true.
Proof. vm_compute. reflexivity. Qed.

(** Values of [np.var] in the model: an ascending and a descending
    arrangement of the same four doubles, an alternating series, a series
    of the two doubles nearest to 0.74949899799599196 and
    1.6439261889959078 (within 0.4472 of their midpoint, variance 0.2 as
    computed), four consecutive 64-bit integers near 10^17 (which the
    conversion to float64 makes equal), and the empty series. *)
Example np_var_values :
  (np_var [0; 0.4; 0.8; 1.2]%Q =? 0.19999999999999998)%float = true /\
  (np_var [1.2; 0.8; 0.4; 0]%Q =? 0.2)%float = true /\
  (np_var [0; 1; 0; 1]%Q =? 0.25)%float = true /\
  (np_var [1.6439261889959078; 0.74949899799599196;
           1.6439261889959078; 0.74949899799599196]%Q =? 0.2)%float = true /\
  (np_var [100000000000000000; 100000000000000001;
           100000000000000002; 100000000000000003]%Q =? 0)%float = true /\
  PrimFloat.is_nan (np_var []) = true.
Proof. vm_compute. repeat split. Qed.

(** The variance test is not invariant under a shift of the series: the
    alternating series 0, 1, 0, 1 passes it, the same series shifted by
    10^17, whose values the conversion to float64 makes equal, does not. *)
Example variance_test_is_not_shift_invariant :
  variance_test [0; 1; 0; 1]%Q = false /\
  variance_test (map (Qplus 100000000000000000) [0; 1; 0; 1]%Q) = true.
Proof. vm_compute. split; reflexivity. Qed.

(** ** Ceilings and range counts *)

Lemma ceil_truediv (a f : Z) :
  0 < f -> ceiling_of a f (ceil (inject_Z a / inject_Z f)).
Proof.
  intros Hf. unfold ceiling_of, ceil.
  set (q := (inject_Z a / inject_Z f)%Q).
  assert (Hfq : (0 < inject_Z f)%Q).
  { change (inject_Z 0 < inject_Z f)%Q. rewrite <- Zlt_Qlt. exact Hf. }
  assert (Ha : (inject_Z a == inject_Z f * q)%Q).
  { unfold q. rewrite Qmult_div_r; [reflexivity | lra]. }
  pose proof (Qle_ceiling q) as Hup.
  pose proof (Qceiling_lt q) as Hlow.
  split.
  - rewrite Zlt_Qlt, inject_Z_mult, Ha.
    apply Qmult_lt_l; assumption.
  - rewrite Zle_Qle, inject_Z_mult, Ha.
    apply Qmult_le_l; assumption.
Qed.

Lemma ceiling_of_unique (a f c c' : Z) :
  0 < f -> ceiling_of a f c -> ceiling_of a f c' -> c = c'.
Proof. unfold ceiling_of. intros Hf H H'. nia. Qed.

Lemma ceiling_of_mono (a a' f c c' : Z) :
  0 < f -> a <= a' -> ceiling_of a f c -> ceiling_of a' f c' -> c <= c'.
Proof. unfold ceiling_of. intros Hf Ha H H'. nia. Qed.

Lemma len_range_count (a b s : Z) :
  0 < s -> exists n, len_range a b s = Ok n /\ count_stepped a b s n.
Proof.
  intros Hs. unfold len_range.
  destruct (Z.eqb_spec s 0) as [E | _]; [lia |].
  destruct (Z.ltb_spec 0 s) as [_ | Hle]; [| lia].
  eexists. split; [reflexivity |].
  unfold count_stepped.
  destruct (Z.ltb_spec a b) as [Hab | Hab].
  - pose proof (Z.div_mod (b - a - 1) s ltac:(lia)) as Hdm.
    pose proof (Z.mod_pos_bound (b - a - 1) s Hs) as Hmod.
    assert (Hq : 0 <= (b - a - 1) / s) by (apply Z.div_pos; lia).
    split; [lia |]. intros i Hi. split; intros H; nia.
  - split; [lia |]. intros i Hi. split; intros H; nia.
Qed.

Lemma count_stepped_unique (a b s n n' : Z) :
  count_stepped a b s n -> count_stepped a b s n' -> n = n'.
Proof.
  intros [Hn H] [Hn' H'].
  destruct (Z.lt_trichotomy n n') as [Hlt | [E | Hgt]]; [| exact E |]; exfalso.
  - pose proof (proj1 (H' n Hn) Hlt) as Hin.
    apply (H n Hn) in Hin. lia.
  - pose proof (proj1 (H n' Hn') Hgt) as Hin.
    apply (H' n' Hn') in Hin. lia.
Qed.

(** A longer interval holds at least as many stepped integers. *)
Lemma count_stepped_mono (a b b' s n n' : Z) :
  0 < s -> b <= b' ->
  count_stepped a b s n -> count_stepped a b' s n' -> n <= n'.
Proof.
  intros Hs Hb [Hn H] [Hn' H'].
  destruct (Z.le_gt_cases n n') as [Hle | Hgt]; [exact Hle | exfalso].
  pose proof (proj1 (H n' Hn') Hgt) as Hin.
  assert (Hin' : a + n' * s < b') by lia.
  apply (H' n' Hn') in Hin'. lia.
Qed.

(** ** Division in binary64 *)

Lemma round_half_even_exact (n d : Z) :
  0 < d -> round_half_even (n * d) d = n.
Proof.
  intros Hd. unfold round_half_even.
  rewrite Z.mod_mul by lia. rewrite Z.div_mul by lia.
  change (2 * 0) with 0. now destruct (Z.compare_spec 0 d); try lia.
Qed.

(** An integer of at most 53 bits over a small power of two: the
    significand is the integer, shifted to 53 bits, and nothing is rounded
    away. *)
Lemma binary64_parts_quotient (a k : Z) (d : positive) :
  Z.pos d = 2 ^ k -> 0 <= k <= 4 -> a <> 0 -> Z.abs a < 2 ^ 53 ->
  binary64_parts (a # d)
  = (a * 2 ^ (52 - Z.log2 (Z.abs a)), Z.log2 (Z.abs a) - k - 52).
Proof.
  intros Hd Hk Ha Hlt.
  unfold binary64_parts. cbn [Qnum Qden].
  set (A := Z.abs a). set (L := Z.log2 A).
  assert (HA : 0 < A) by (unfold A; lia).
  destruct (Z.log2_spec A HA) as [Hlo Hhi]. fold L in Hlo, Hhi.
  assert (HL0 : 0 <= L) by apply Z.log2_nonneg.
  assert (HL : L <= 52).
  { destruct (Z.le_gt_cases L 52) as [H | H]; [exact H | exfalso].
    assert (2 ^ 53 <= 2 ^ L) by (apply Z.pow_le_mono_r; lia). lia. }
  destruct (Z.eqb_spec A 0) as [E | _]; [lia |].
  rewrite Hd, Z.log2_pow2 by lia.
  assert (Hcond : (if 0 <=? L - k then 2 ^ k * 2 ^ (L - k) <=? A
                   else 2 ^ k <=? A * 2 ^ (- (L - k))) = true).
  { destruct (Z.leb_spec 0 (L - k)).
    - apply Z.leb_le. rewrite <- Z.pow_add_r by lia.
      replace (k + (L - k)) with L by lia. exact Hlo.
    - apply Z.leb_le.
      assert (2 ^ k = 2 ^ L * 2 ^ (- (L - k))).
      { rewrite <- Z.pow_add_r by lia. f_equal. lia. }
      assert (0 < 2 ^ (- (L - k))) by (apply Z.pow_pos_nonneg; lia).
      nia. }
  rewrite Hcond.
  rewrite Z.max_l by lia.
  assert (Hm : (if 0 <=? L - k - 52
                then round_half_even A (2 ^ k * 2 ^ (L - k - 52))
                else round_half_even (A * 2 ^ (- (L - k - 52))) (2 ^ k))
               = A * 2 ^ (52 - L)).
  { destruct (Z.leb_spec 0 (L - k - 52)).
    - assert (k = 0) by lia. assert (L = 52) by lia. subst k.
      replace (L - 0 - 52) with 0 by lia. replace (52 - L) with 0 by lia.
      change (2 ^ 0 * 2 ^ 0) with 1. rewrite Z.mul_1_r.
      rewrite <- (Z.mul_1_r A) at 1. apply round_half_even_exact. lia.
    - replace (- (L - k - 52)) with ((52 - L) + k) by lia.
      rewrite Z.pow_add_r by lia. rewrite Z.mul_assoc.
      apply round_half_even_exact. apply Z.pow_pos_nonneg; lia. }
  rewrite Hm. f_equal.
  destruct (Z.ltb_spec a 0); unfold A; [rewrite Z.abs_neq by lia | rewrite Z.abs_eq by lia]; lia.
Qed.

Lemma binary64_value_quotient (a k : Z) (d : positive) :
  Z.pos d = 2 ^ k -> 0 <= k <= 4 -> Z.abs a < 2 ^ 53 ->
  (binary64_value (a # d) == a # d)%Q.
Proof.
  intros Hd Hk Hlt.
  destruct (Z.eq_dec a 0) as [-> | Ha]; [reflexivity |].
  unfold binary64_value. rewrite (binary64_parts_quotient a k d Hd Hk Ha Hlt).
  set (L := Z.log2 (Z.abs a)).
  assert (HL0 : 0 <= L) by apply Z.log2_nonneg.
  assert (HA : 0 < Z.abs a) by lia.
  assert (HL : L <= 52).
  { destruct (Z.le_gt_cases L 52) as [H | H]; [exact H | exfalso].
    destruct (Z.log2_spec _ HA) as [Hlo _]. fold L in Hlo.
    assert (2 ^ 53 <= 2 ^ L) by (apply Z.pow_le_mono_r; lia). lia. }
  rewrite inject_Z_mult, (Zpower_Qpower 2 (52 - L)) by lia.
  rewrite <- Qmult_assoc, <- Qpower_plus by discriminate.
  replace (52 - L + (L - k - 52)) with (- k) by lia.
  rewrite Qpower_opp, <- Zpower_Qpower by lia.
  rewrite <- Hd. rewrite (Qmake_Qdiv a d). reflexivity.
Qed.

(** The quotient of an integer below 2^53 in magnitude by 1, 2, 4, 8 or
    16 is a double. *)
Lemma truediv_is_binary64 (a f : Z) :
  Z.abs a < 2 ^ 53 -> In f [1; 2; 4; 8; 16] ->
  exists q, truediv a f = Ok q /\ (binary64_value q == q)%Q.
Proof.
  intros Ha Hf. unfold truediv.
  assert (Hq : forall p : positive,
             (inject_Z a / inject_Z (Z.pos p))%Q = ((a * 1) # p)) by reflexivity.
  simpl in Hf.
  destruct Hf as [<- | [<- | [<- | [<- | [<- | []]]]]]; cbn [Z.eqb];
    eexists; (split; [reflexivity |]); rewrite Hq, Z.mul_1_r.
  - now apply (binary64_value_quotient a 0).
  - now apply (binary64_value_quotient a 1).
  - now apply (binary64_value_quotient a 2).
  - now apply (binary64_value_quotient a 3).
  - now apply (binary64_value_quotient a 4).
Qed.

Lemma division_is_exact_below_2_53 (self : MADRID) (f : Z) :
  Z.abs (min_length self) < 2 ^ 53 ->
  Z.abs (max_length self) < 2 ^ 53 ->
  In f [1; 2; 4; 8; 16] ->
  division_is_exact self f.
Proof.
  intros Hmin Hmax Hf.
  destruct (truediv_is_binary64 _ f Hmin Hf) as (lo & Elo & Hlo).
  destruct (truediv_is_binary64 _ f Hmax Hf) as (hi & Ehi & Hhi).
  exists lo, hi. repeat split; assumption.
Qed.

(** Past 2^53 the division rounds: [(2^53 + 1) / 1] is [2^53] in
    binary64. *)
Example division_rounds_past_2_53 :
  ~ division_is_exact {| min_length := 2 ^ 53 + 1; max_length := 2 ^ 53 + 3;
                         split_psn := 2 ^ 53 + 4; step_size := 1 |} 1.
Proof.
  intros (lo & hi & Elo & Hlo & _).
  vm_compute in Elo. injection Elo as <-.
  vm_compute in Hlo. discriminate.
Qed.

(** ** The runtime estimator *)

Section Estimator.

Variable self : MADRID.
Hypothesis step_size_positive : 0 < step_size self.

Lemma problem_size_ok (len_x factor : Z) :
  0 < factor ->
  exists s, problem_size self len_x factor = Ok s /\
            is_problem_size self len_x factor s.
Proof.
  intros Hf. unfold problem_size, truediv.
  destruct (len_range_count 1 (len_x - split_psn self) factor Hf)
    as (positions & Epos & Hpos).
  rewrite Epos. cbn [result_bind].
  destruct (Z.eqb_spec factor 0) as [E | _]; [lia |]. cbn [result_bind].
  set (lo := ceil (inject_Z (min_length self) / inject_Z factor)).
  set (hi := ceil (inject_Z (max_length self) / inject_Z factor)).
  destruct (len_range_count lo hi (step_size self) step_size_positive)
    as (lengths & Elen & Hlen).
  rewrite Elen. cbn [result_bind].
  eexists. split; [reflexivity |].
  exists positions, lo, hi, lengths.
  split; [exact Hpos |].
  split; [apply ceil_truediv; exact Hf |].
  split; [apply ceil_truediv; exact Hf |].
  split; [exact Hlen | reflexivity].
Qed.

Lemma is_problem_size_unique (len_x factor s s' : Z) :
  0 < factor ->
  is_problem_size self len_x factor s ->
  is_problem_size self len_x factor s' -> s = s'.
Proof.
  intros Hf (p & lo & hi & l & Hp & Hlo & Hhi & Hl & ->)
            (p' & lo' & hi' & l' & Hp' & Hlo' & Hhi' & Hl' & ->).
  assert (lo = lo') by (eapply ceiling_of_unique; eauto). subst lo'.
  assert (hi = hi') by (eapply ceiling_of_unique; eauto). subst hi'.
  assert (p = p') by (eapply count_stepped_unique; eauto).
  assert (l = l') by (eapply count_stepped_unique; eauto).
  now subst.
Qed.

(** The problem size never decreases with the series length. *)
Lemma problem_size_mono (len_x len_x' factor s s' : Z) :
  0 < factor -> len_x <= len_x' ->
  problem_size self len_x factor = Ok s ->
  problem_size self len_x' factor = Ok s' ->
  s <= s'.
Proof.
  intros Hf Hle Hs Hs'.
  destruct (problem_size_ok len_x factor Hf) as (t & Et & Ht).
  destruct (problem_size_ok len_x' factor Hf) as (t' & Et' & Ht').
  rewrite Et in Hs. rewrite Et' in Hs'.
  injection Hs as <-. injection Hs' as <-.
  destruct Ht as (p & lo & hi & l & Hp & Hlo & Hhi & Hl & ->).
  destruct Ht' as (p' & lo' & hi' & l' & Hp' & Hlo' & Hhi' & Hl' & ->).
  assert (lo = lo') by (eapply ceiling_of_unique; eauto). subst lo'.
  assert (hi = hi') by (eapply ceiling_of_unique; eauto). subst hi'.
  assert (l = l') by (eapply count_stepped_unique; eauto). subst l'.
  assert (p <= p').
  { eapply (count_stepped_mono 1 (len_x - split_psn self)
                               (len_x' - split_psn self) factor); eauto. lia. }
  destruct Hl as [Hl _]. nia.
Qed.

End Estimator.

(** The frame the estimator leaves behind, given the five problem sizes. *)
Lemma estimate_processing_time_run (self : MADRID) (len_x s1 s2 s4 s8 s16 : Z) :
  problem_size self len_x 1 = Ok s1 ->
  problem_size self len_x 2 = Ok s2 ->
  problem_size self len_x 4 = Ok s4 ->
  problem_size self len_x 8 = Ok s8 ->
  problem_size self len_x 16 = Ok s16 ->
  let p_1 := if s1 <? 5000000 then p_1_polynomial else p_1_linear in
  let p_2 := if s1 <? 5000000 then p_2_polynomial else p_2_linear in
  run (_estimate_processing_time self len_x) =
  ([ ("predicted_execution_time_1"%string,
        VFloat (Fin (polyval p_1 (inject_Z s1))));
     ("factor"%string, VInt 1);
     ("predicted_execution_time_2"%string,
        VFloat (Fin (polyval p_2 (inject_Z s2))));
     ("factor"%string, VInt 2);
     ("predicted_execution_time_4"%string,
        VFloat (Fin (polyval p_4_linear (inject_Z s4))));
     ("factor"%string, VInt 4);
     ("predicted_execution_time_8"%string,
        VFloat (Fin (polyval p_8_linear (inject_Z s8))));
     ("factor"%string, VInt 8);
     ("predicted_execution_time_16"%string,
        VFloat (Fin (polyval p_16_linear (inject_Z s16))));
     ("factor"%string, VInt 16);
     ("p_16"%string, VList p_16_linear);
     ("p_8"%string, VList p_8_linear);
     ("p_4"%string, VList p_4_linear);
     ("p_2"%string, VList p_2);
     ("p_1"%string, VList p_1);
     ("factor"%string, VInt 1) ],
   Ok VNone).
Proof.
  intros E1 E2 E4 E8 E16 p_1 p_2. subst p_1 p_2.
  unfold run, _estimate_processing_time, bind, lift, assign, ret.
  rewrite E1, E2, E4, E8, E16.
  destruct (s1 <? 5000000); reflexivity.
Qed.

Lemma polynomial_is_not_linear :
  p_1_polynomial <> p_1_linear /\ p_2_polynomial <> p_2_linear.
Proof. split; intros H; apply (f_equal (@List.length Q)) in H; discriminate. Qed.

(** C5. For a detector with a positive step size and lengths below 2^53
    in magnitude (the two divisions by the factor are then exact in
    binary64), the estimator computes,
    for each factor [f] of 1, 2, 4, 8, 16, the problem size: the count of
    the integers of [[1, N - split_psn)] stepped by [f] times the count of
    the integers of [[ceil(min_length / f), ceil(max_length / f))] stepped
    by [step_size].  It binds [p_1] and [p_2] to the degree-6 coefficient
    lists exactly when the factor-1 problem size is below 5,000,000 and to
    the linear ones exactly when it is not; [p_4], [p_8], [p_16] are always
    their fixed linear models; each prediction is the model of its factor
    evaluated at the problem size of its factor. *)
Theorem estimator_problem_size_and_regime :
  forall self len_x,
    0 < step_size self ->
    Z.abs (min_length self) < 2 ^ 53 ->
    Z.abs (max_length self) < 2 ^ 53 ->
    (forall f, In f [1; 2; 4; 8; 16] -> division_is_exact self f) /\
    exists s1 s2 s4 s8 s16,
      is_problem_size self len_x 1 s1 /\
      is_problem_size self len_x 2 s2 /\
      is_problem_size self len_x 4 s4 /\
      is_problem_size self len_x 8 s8 /\
      is_problem_size self len_x 16 s16 /\
      let fr := frame_of (_estimate_processing_time self len_x) in
      let get_p_1 := lookup "p_1" fr in
      let get_p_2 := lookup "p_2" fr in
      (get_p_1 = Some (VList p_1_polynomial) <-> s1 < 5000000) /\
      (get_p_2 = Some (VList p_2_polynomial) <-> s1 < 5000000) /\
      (get_p_1 = Some (VList p_1_linear) <-> 5000000 <= s1) /\
      (get_p_2 = Some (VList p_2_linear) <-> 5000000 <= s1) /\
      lookup "p_4" fr = Some (VList p_4_linear) /\
      lookup "p_8" fr = Some (VList p_8_linear) /\
      lookup "p_16" fr = Some (VList p_16_linear) /\
      predicted_execution_time self len_x 1 =
        Some (polyval (if s1 <? 5000000 then p_1_polynomial else p_1_linear)
                      (inject_Z s1)) /\
      predicted_execution_time self len_x 2 =
        Some (polyval (if s1 <? 5000000 then p_2_polynomial else p_2_linear)
                      (inject_Z s2)) /\
      predicted_execution_time self len_x 4 =
        Some (polyval p_4_linear (inject_Z s4)) /\
      predicted_execution_time self len_x 8 =
        Some (polyval p_8_linear (inject_Z s8)) /\
      predicted_execution_time self len_x 16 =
        Some (polyval p_16_linear (inject_Z s16)).
Proof.
  intros self len_x Hstep Hmin Hmax.
  split; [intros f Hf; now apply division_is_exact_below_2_53 |].
  destruct (problem_size_ok self Hstep len_x 1 ltac:(lia)) as (s1 & E1 & H1).
  destruct (problem_size_ok self Hstep len_x 2 ltac:(lia)) as (s2 & E2 & H2).
  destruct (problem_size_ok self Hstep len_x 4 ltac:(lia)) as (s4 & E4 & H4).
  destruct (problem_size_ok self Hstep len_x 8 ltac:(lia)) as (s8 & E8 & H8).
  destruct (problem_size_ok self Hstep len_x 16 ltac:(lia)) as (s16 & E16 & H16).
  exists s1, s2, s4, s8, s16.
  do 5 (split; [assumption |]).
  unfold predicted_execution_time, frame_of.
  rewrite (estimate_processing_time_run self len_x _ _ _ _ _ E1 E2 E4 E8 E16).
  cbn [fst prediction_name].
  destruct polynomial_is_not_linear as [Hp1 Hp2].
  destruct (Z.ltb_spec s1 5000000) as [Hlt | Hge]; cbv zeta;
    match goal with |- context [lookup "p_1" ?f] => set (fr := f) end.
  - assert (L1 : lookup "p_1" fr = Some (VList p_1_polynomial)) by reflexivity.
    assert (L2 : lookup "p_2" fr = Some (VList p_2_polynomial)) by reflexivity.
    rewrite L1, L2.
    split; [split; [intros _; exact Hlt | reflexivity] |].
    split; [split; [intros _; exact Hlt | reflexivity] |].
    split; [split; [intros H; exfalso; apply Hp1; exact (f_equal unlist H)
                   | intros H; exfalso; clear - H Hlt; lia] |].
    split; [split; [intros H; exfalso; apply Hp2; exact (f_equal unlist H)
                   | intros H; exfalso; clear - H Hlt; lia] |].
    repeat (split; [reflexivity |]). reflexivity.
  - assert (L1 : lookup "p_1" fr = Some (VList p_1_linear)) by reflexivity.
    assert (L2 : lookup "p_2" fr = Some (VList p_2_linear)) by reflexivity.
    rewrite L1, L2.
    split; [split; [intros H; exfalso; apply Hp1; symmetry;
                    exact (f_equal unlist H)
                   | intros H; exfalso; clear - H Hge; lia] |].
    split; [split; [intros H; exfalso; apply Hp2; symmetry;
                    exact (f_equal unlist H)
                   | intros H; exfalso; clear - H Hge; lia] |].
    split; [split; [intros _; exact Hge | reflexivity] |].
    split; [split; [intros _; exact Hge | reflexivity] |].
    repeat (split; [reflexivity |]). reflexivity.
Qed.

Lemma estimator_problem_size_and_regime_witness :
  let self := {| min_length := 30; max_length := 70; split_psn := 71;
                 step_size := 10 |} in
  division_is_exact self 4 /\
  exists s1 s4,
    is_problem_size self 1000 1 s1 /\
    is_problem_size self 1000 4 s4 /\
    (lookup "p_1" (frame_of (_estimate_processing_time self 1000))
       = Some (VList p_1_polynomial) <-> s1 < 5000000) /\
    predicted_execution_time self 1000 4 =
      Some (polyval p_4_linear (inject_Z s4)).
Proof.
  intros self.
  destruct (estimator_problem_size_and_regime self 1000)
    as (Hexact & s1 & s2 & s4 & s8 & s16 & H1 & _ & H4 & _ & _ & Hp1 & _ & _
        & _ & _ & _ & _ & _ & _ & P4 & _).
  - simpl. lia.
  - vm_compute. reflexivity.
  - vm_compute. reflexivity.
  - split; [apply Hexact; simpl; tauto |].
    exists s1, s4. repeat split; try assumption; apply Hp1.
Defined.

(** The predictions, given the five problem sizes. *)
Lemma predicted_execution_times (self : MADRID) (len_x s1 s2 s4 s8 s16 : Z) :
  problem_size self len_x 1 = Ok s1 ->
  problem_size self len_x 2 = Ok s2 ->
  problem_size self len_x 4 = Ok s4 ->
  problem_size self len_x 8 = Ok s8 ->
  problem_size self len_x 16 = Ok s16 ->
  predicted_execution_time self len_x 1 =
    Some (polyval (if s1 <? 5000000 then p_1_polynomial else p_1_linear)
                  (inject_Z s1)) /\
  predicted_execution_time self len_x 2 =
    Some (polyval (if s1 <? 5000000 then p_2_polynomial else p_2_linear)
                  (inject_Z s2)) /\
  predicted_execution_time self len_x 4 = Some (polyval p_4_linear (inject_Z s4)) /\
  predicted_execution_time self len_x 8 = Some (polyval p_8_linear (inject_Z s8)) /\
  predicted_execution_time self len_x 16 = Some (polyval p_16_linear (inject_Z s16)).
Proof.
  intros E1 E2 E4 E8 E16.
  unfold predicted_execution_time, frame_of.
  rewrite (estimate_processing_time_run self len_x _ _ _ _ _ E1 E2 E4 E8 E16).
  cbn [fst prediction_name]. cbv zeta.
  repeat split; reflexivity.
Qed.

(** A linear model with a non-negative slope and no intercept grows with
    the problem size. *)
Lemma linear_model_mono (c : Q) (s s' : Z) :
  (0 <= c)%Q -> s <= s' ->
  (polyval [c; 0%Q] (inject_Z s) <= polyval [c; 0%Q] (inject_Z s'))%Q.
Proof.
  intros Hc Hs. unfold polyval. cbn [fold_left].
  rewrite Zle_Qle in Hs.
  setoid_replace ((0 * inject_Z s + c) * inject_Z s + 0)%Q
    with (c * inject_Z s)%Q by ring.
  setoid_replace ((0 * inject_Z s' + c) * inject_Z s' + 0)%Q
    with (c * inject_Z s')%Q by ring.
  rewrite (Qmult_comm c (inject_Z s)), (Qmult_comm c (inject_Z s')).
  apply Qmult_le_compat_r; assumption.
Qed.

Lemma linear_slopes_nonnegative :
  Forall (fun p => exists c, p = [c; 0%Q] /\ (0 <= c)%Q)
         [p_1_linear; p_2_linear; p_4_linear; p_8_linear; p_16_linear].
Proof.
  repeat constructor; eexists; (split; [reflexivity | vm_compute; discriminate]).
Qed.

Lemma linear_models_mono (s s' : Z) :
  s <= s' ->
  Forall (fun p => (polyval p (inject_Z s) <= polyval p (inject_Z s'))%Q)
         [p_1_linear; p_2_linear; p_4_linear; p_8_linear; p_16_linear].
Proof.
  intros Hs. eapply Forall_impl; [| exact linear_slopes_nonnegative].
  intros p (c & -> & Hc). now apply linear_model_mono.
Qed.

Lemma polyval_comp (p : list Q) (x y : Q) :
  (x == y)%Q -> (polyval p x == polyval p y)%Q.
Proof.
  intros Hxy. unfold polyval.
  assert (H : forall a b : Q, (a == b)%Q ->
            (fold_left (fun y0 pv => y0 * x + pv) p a ==
             fold_left (fun y0 pv => y0 * y + pv) p b)%Q).
  { induction p as [| c p IH]; intros a b Hab; cbn [fold_left]; [exact Hab |].
    apply IH. now rewrite Hab, Hxy. }
  now apply H.
Qed.

Lemma Qhorner_nonneg (y s c : Q) :
  (0 <= y)%Q -> (0 <= s)%Q -> (0 <= c)%Q -> (0 <= y * s + c)%Q.
Proof.
  intros Hy Hs Hc. pose proof (Qmult_le_0_compat _ _ Hy Hs). lra.
Qed.

Lemma Qhorner_le (y y' s t c : Q) :
  (0 <= y <= y')%Q -> (0 <= s <= t)%Q -> (y * s + c <= y' * t + c)%Q.
Proof.
  intros [Hy Hyy] [Hs Hst].
  assert (H1 : (0 <= (y' - y) * t)%Q) by (apply Qmult_le_0_compat; lra).
  assert (H2 : (0 <= y * (t - s))%Q) by (apply Qmult_le_0_compat; lra).
  lra.
Qed.

(** A degree-6 model whose second difference is non-positive up to [T]
    and whose last step before [T] goes up never decreases on the integers
    of [[0, T]]. *)
Section ConcaveModel.

Variables a6 a5 a4 a3 a2 a1 a0 : Q.
Variable T : Z.

Let p : Q -> Q := polyval [a6; a5; a4; a3; a2; a1; a0].

Hypothesis a6_nonpositive : (a6 <= 0)%Q.
Hypothesis a5_nonnegative : (0 <= a5)%Q.
Hypothesis a4_nonpositive : (a4 <= 0)%Q.
Hypothesis a3_nonnegative : (0 <= a3)%Q.
Hypothesis concave_up_to_T :
  (2 * a2 + a3 * (6 * inject_Z T + 6)
   + a5 * (((20 * inject_Z T + 60) * inject_Z T + 70) * inject_Z T + 30) <= 0)%Q.
Hypothesis last_step_up : (p (inject_Z (T - 1)) <= p (inject_Z T))%Q.

Lemma second_difference (s : Q) :
  (p (s + 2) - 2 * p (s + 1) + p s ==
   a6 * ((((30 * s + 120) * s + 210) * s + 180) * s + 62)
   + a5 * (((20 * s + 60) * s + 70) * s + 30)
   + a4 * ((12 * s + 24) * s + 14)
   + a3 * (6 * s + 6)
   + 2 * a2)%Q.
Proof. unfold p, polyval. cbn [fold_left]. ring. Qed.

Lemma second_difference_nonpositive (s : Z) :
  0 <= s <= T ->
  (p (inject_Z s + 2) - 2 * p (inject_Z s + 1) + p (inject_Z s) <= 0)%Q.
Proof.
  intros [Hs HsT]. rewrite second_difference.
  assert (H0 : (0 <= inject_Z s)%Q).
  { change (inject_Z 0 <= inject_Z s)%Q. now rewrite <- Zle_Qle. }
  assert (HT : (inject_Z s <= inject_Z T)%Q) by (now rewrite <- Zle_Qle).
  set (x := inject_Z s) in *. set (t := inject_Z T) in *.
  assert (H6 : (0 <= (((30 * x + 120) * x + 210) * x + 180) * x + 62)%Q).
  { repeat (apply Qhorner_nonneg; [| exact H0 | lra]). lra. }
  assert (H4 : (0 <= (12 * x + 24) * x + 14)%Q).
  { repeat (apply Qhorner_nonneg; [| exact H0 | lra]). lra. }
  assert (H5 : (((20 * x + 60) * x + 70) * x + 30
                <= ((20 * t + 60) * t + 70) * t + 30)%Q).
  { apply Qhorner_le; [| lra]. split.
    - repeat (apply Qhorner_nonneg; [| exact H0 | lra]). lra.
    - apply Qhorner_le; [| lra]. split.
      + apply Qhorner_nonneg; lra.
      + lra. }
  assert (H3 : (6 * x + 6 <= 6 * t + 6)%Q) by lra.
  assert (M6 : (0 <= (- a6) * ((((30 * x + 120) * x + 210) * x + 180) * x + 62))%Q)
    by (apply Qmult_le_0_compat; [lra | exact H6]).
  assert (M4 : (0 <= (- a4) * ((12 * x + 24) * x + 14))%Q)
    by (apply Qmult_le_0_compat; [lra | exact H4]).
  assert (M5 : (0 <= a5 * ((((20 * t + 60) * t + 70) * t + 30)
                           - (((20 * x + 60) * x + 70) * x + 30)))%Q)
    by (apply Qmult_le_0_compat; [exact a5_nonnegative | lra]).
  assert (M3 : (0 <= a3 * ((6 * t + 6) - (6 * x + 6)))%Q)
    by (apply Qmult_le_0_compat; [exact a3_nonnegative | lra]).
  set (c6 := ((((30 * x + 120) * x + 210) * x + 180) * x + 62)%Q) in *.
  set (c5 := (((20 * x + 60) * x + 70) * x + 30)%Q) in *.
  set (c5t := (((20 * t + 60) * t + 70) * t + 30)%Q) in *.
  set (c4 := ((12 * x + 24) * x + 14)%Q) in *.
  set (c3 := (6 * x + 6)%Q) in *. set (c3t := (6 * t + 6)%Q) in *.
  setoid_replace (- a6 * c6)%Q with (- (a6 * c6))%Q in M6 by ring.
  setoid_replace (- a4 * c4)%Q with (- (a4 * c4))%Q in M4 by ring.
  setoid_replace (a5 * (c5t - c5))%Q with (a5 * c5t - a5 * c5)%Q in M5 by ring.
  setoid_replace (a3 * (c3t - c3))%Q with (a3 * c3t - a3 * c3)%Q in M3 by ring.
  pose proof concave_up_to_T as HB. fold t in HB. fold c3t c5t in HB.
  lra.
Qed.

(** Every step up to [T] is a step up. *)
Lemma step_up (k : nat) (s : Z) :
  0 <= s -> s + Z.of_nat k = T - 1 ->
  (p (inject_Z s) <= p (inject_Z (s + 1)))%Q.
Proof.
  revert s. induction k as [| k IH]; intros s Hs Hk.
  - replace s with (T - 1) by lia. replace (T - 1 + 1) with T by lia.
    exact last_step_up.
  - pose proof (IH (s + 1) ltac:(lia) ltac:(lia)) as Hnext.
    pose proof (second_difference_nonpositive s ltac:(lia)) as Hd.
    assert (E1 : (p (inject_Z (s + 1)) == p (inject_Z s + 1))%Q).
    { apply polyval_comp. rewrite inject_Z_plus. reflexivity. }
    assert (E2 : (p (inject_Z (s + 1 + 1)) == p (inject_Z s + 2))%Q).
    { apply polyval_comp. rewrite !inject_Z_plus. ring. }
    lra.
Qed.

Lemma concave_model_mono_nat (n : nat) (s : Z) :
  0 <= s -> s + Z.of_nat n <= T ->
  (p (inject_Z s) <= p (inject_Z (s + Z.of_nat n)))%Q.
Proof.
  induction n as [| n IH]; intros Hs Hn.
  - replace (s + Z.of_nat 0) with s by lia. apply Qle_refl.
  - eapply Qle_trans; [apply IH; lia |].
    replace (s + Z.of_nat (S n)) with (s + Z.of_nat n + 1) by lia.
    apply (step_up (Z.to_nat (T - 1 - (s + Z.of_nat n)))); lia.
Qed.

Lemma concave_model_mono (s s' : Z) :
  0 <= s -> s <= s' -> s' <= T ->
  (polyval [a6; a5; a4; a3; a2; a1; a0] (inject_Z s)
   <= polyval [a6; a5; a4; a3; a2; a1; a0] (inject_Z s'))%Q.
Proof.
  intros Hs Hle HT.
  replace s' with (s + Z.of_nat (Z.to_nat (s' - s))) by lia.
  apply concave_model_mono_nat; lia.
Qed.

End ConcaveModel.

(** The two degree-6 models rise up to their peaks, at the problem sizes
    2,890,753 and 638,746. *)
Lemma p_1_polynomial_mono (s s' : Z) :
  0 <= s -> s <= s' -> s' <= 2890753 ->
  (polyval p_1_polynomial (inject_Z s) <= polyval p_1_polynomial (inject_Z s'))%Q.
Proof.
  unfold p_1_polynomial.
  apply (concave_model_mono _ _ _ _ _ _ _ 2890753); vm_compute; discriminate.
Qed.

Lemma p_2_polynomial_mono (s s' : Z) :
  0 <= s -> s <= s' -> s' <= 638746 ->
  (polyval p_2_polynomial (inject_Z s) <= polyval p_2_polynomial (inject_Z s'))%Q.
Proof.
  unfold p_2_polynomial.
  apply (concave_model_mono _ _ _ _ _ _ _ 638746); vm_compute; discriminate.
Qed.

Lemma problem_size_nonneg (self : MADRID) (len_x factor s : Z) :
  0 < step_size self -> 0 < factor ->
  problem_size self len_x factor = Ok s -> 0 <= s.
Proof.
  intros Hstep Hf Hs.
  destruct (problem_size_ok self Hstep len_x factor Hf)
    as (t & Et & p & lo & hi & l & [Hp _] & _ & _ & [Hl _] & ->).
  rewrite Et in Hs. injection Hs as <-. nia.
Qed.

(** The factor-1 polynomial model at its peak is below the factor-1 linear
    model at the size where the regime switches. *)
Lemma p_1_peak_below_linear (s s' : Z) :
  0 <= s -> s <= 2890753 -> 5000000 <= s' ->
  (polyval p_1_polynomial (inject_Z s) <= polyval p_1_linear (inject_Z s'))%Q.
Proof.
  intros Hs Hpeak Hbig.
  apply Qle_trans with (polyval p_1_polynomial (inject_Z 2890753)).
  { apply p_1_polynomial_mono; lia. }
  apply Qle_trans with (polyval p_1_linear (inject_Z 5000000)).
  { vm_compute. discriminate. }
  pose proof (linear_models_mono 5000000 s' Hbig) as L.
  rewrite Forall_forall in L. apply L. simpl. tauto.
Qed.

(** C9, as the code has it.  When the series length grows, the predicted
    time never decreases
    - for the factors 4, 8 and 16, whose models are linear;
    - for the factors 1 and 2 once the factor-1 problem size has reached
      5,000,000, where their linear models are in use;
    - for factor 1 in the polynomial regime as long as the larger problem
      size is at most 2,890,753, the peak of the degree-6 model, and from
      below that peak into the linear regime;
    - for factor 2 in the polynomial regime as long as the larger factor-2
      problem size is at most 638,746, the peak of its degree-6 model.
    Both peaks are sharp: one more start position past each, the
    prediction is smaller.  In particular the growth from 1,000 to 2,000
    values with lengths 30 to 70 stepped by 10 (problem sizes 3,712 and
    7,712) raises the prediction. *)
Theorem estimator_monotone_up_to_the_peaks :
  (forall self N N' f,
     0 < step_size self ->
     N <= N' ->
     (f = 4 \/ f = 8 \/ f = 16) \/
     ((f = 1 \/ f = 2) /\
      exists s1, problem_size self N 1 = Ok s1 /\ 5000000 <= s1) \/
     (f = 1 /\
      exists s1', problem_size self N' 1 = Ok s1' /\ s1' <= 2890753) \/
     (f = 1 /\
      exists s1 s1', problem_size self N 1 = Ok s1 /\ s1 <= 2890753 /\
                     problem_size self N' 1 = Ok s1' /\ 5000000 <= s1') \/
     (f = 2 /\
      exists s1' s2', problem_size self N' 1 = Ok s1' /\ s1' < 5000000 /\
                      problem_size self N' 2 = Ok s2' /\ s2' <= 638746) ->
     exists t t',
       predicted_execution_time self N f = Some t /\
       predicted_execution_time self N' f = Some t' /\
       (t <= t')%Q) /\
  (let self := {| min_length := 2; max_length := 3; split_psn := 4;
                  step_size := 1 |} in
   problem_size self 2890758 1 = Ok 2890753 /\
   problem_size self 2890759 1 = Ok 2890754 /\
   match predicted_execution_time self 2890758 1,
         predicted_execution_time self 2890759 1 with
   | Some t, Some t' => (t' < t)%Q
   | _, _ => False
   end) /\
  (let self := {| min_length := 2; max_length := 4; split_psn := 5;
                  step_size := 1 |} in
   problem_size self 1277498 1 = Ok 2554984 /\
   problem_size self 1277498 2 = Ok 638746 /\
   problem_size self 1277499 2 = Ok 638747 /\
   match predicted_execution_time self 1277498 2,
         predicted_execution_time self 1277499 2 with
   | Some t, Some t' => (t' < t)%Q
   | _, _ => False
   end).
Proof.
  split; [| split; vm_compute; repeat split; discriminate].
  intros self N N' f Hstep HN Hf.
  destruct (problem_size_ok self Hstep N 1 ltac:(lia)) as (s1 & E1 & _).
  destruct (problem_size_ok self Hstep N 2 ltac:(lia)) as (s2 & E2 & _).
  destruct (problem_size_ok self Hstep N 4 ltac:(lia)) as (s4 & E4 & _).
  destruct (problem_size_ok self Hstep N 8 ltac:(lia)) as (s8 & E8 & _).
  destruct (problem_size_ok self Hstep N 16 ltac:(lia)) as (s16 & E16 & _).
  destruct (problem_size_ok self Hstep N' 1 ltac:(lia)) as (s1' & E1' & _).
  destruct (problem_size_ok self Hstep N' 2 ltac:(lia)) as (s2' & E2' & _).
  destruct (problem_size_ok self Hstep N' 4 ltac:(lia)) as (s4' & E4' & _).
  destruct (problem_size_ok self Hstep N' 8 ltac:(lia)) as (s8' & E8' & _).
  destruct (problem_size_ok self Hstep N' 16 ltac:(lia)) as (s16' & E16' & _).
  destruct (predicted_execution_times self N _ _ _ _ _ E1 E2 E4 E8 E16)
    as (P1 & P2 & P4 & P8 & P16).
  destruct (predicted_execution_times self N' _ _ _ _ _ E1' E2' E4' E8' E16')
    as (P1' & P2' & P4' & P8' & P16').
  pose proof (problem_size_mono self Hstep N N' 1 _ _ ltac:(lia) HN E1 E1') as M1.
  pose proof (problem_size_mono self Hstep N N' 2 _ _ ltac:(lia) HN E2 E2') as M2.
  pose proof (problem_size_mono self Hstep N N' 4 _ _ ltac:(lia) HN E4 E4') as M4.
  pose proof (problem_size_mono self Hstep N N' 8 _ _ ltac:(lia) HN E8 E8') as M8.
  pose proof (problem_size_mono self Hstep N N' 16 _ _ ltac:(lia) HN E16 E16')
    as M16.
  pose proof (problem_size_nonneg self N 1 _ Hstep ltac:(lia) E1) as Z1.
  pose proof (problem_size_nonneg self N 2 _ Hstep ltac:(lia) E2) as Z2.
  pose proof (linear_models_mono _ _ M1) as L1.
  pose proof (linear_models_mono _ _ M2) as L2.
  pose proof (linear_models_mono _ _ M4) as L4.
  pose proof (linear_models_mono _ _ M8) as L8.
  pose proof (linear_models_mono _ _ M16) as L16.
  rewrite Forall_forall in L1, L2, L4, L8, L16.
  destruct Hf as [[-> | [-> | ->]]
                 | [[Hf (t1 & Et1 & Hbig)]
                   | [[-> (t1' & Et1' & Hpeak)]
                     | [[-> (t1 & t1' & Et1 & Hpeak & Et1' & Hbig)]
                       | [-> (t1' & t2' & Et1' & Hpoly & Et2' & Hpeak)]]]]].
  - do 2 eexists. split; [exact P4 |]. split; [exact P4' |].
    apply L4. simpl. tauto.
  - do 2 eexists. split; [exact P8 |]. split; [exact P8' |].
    apply L8. simpl. tauto.
  - do 2 eexists. split; [exact P16 |]. split; [exact P16' |].
    apply L16. simpl. tauto.
  - rewrite E1 in Et1. injection Et1 as <-.
    assert (B : (s1 <? 5000000) = false) by (apply Z.ltb_ge; lia).
    assert (B' : (s1' <? 5000000) = false) by (apply Z.ltb_ge; lia).
    rewrite B in P1, P2. rewrite B' in P1', P2'.
    destruct Hf as [-> | ->].
    + do 2 eexists. split; [exact P1 |]. split; [exact P1' |].
      apply L1. simpl. tauto.
    + do 2 eexists. split; [exact P2 |]. split; [exact P2' |].
      apply L2. simpl. tauto.
  - rewrite E1' in Et1'. injection Et1' as <-.
    assert (B : (s1 <? 5000000) = true) by (apply Z.ltb_lt; lia).
    assert (B' : (s1' <? 5000000) = true) by (apply Z.ltb_lt; lia).
    rewrite B in P1. rewrite B' in P1'.
    do 2 eexists. split; [exact P1 |]. split; [exact P1' |].
    apply p_1_polynomial_mono; assumption.
  - rewrite E1 in Et1. injection Et1 as <-.
    rewrite E1' in Et1'. injection Et1' as <-.
    assert (B : (s1 <? 5000000) = true) by (apply Z.ltb_lt; lia).
    assert (B' : (s1' <? 5000000) = false) by (apply Z.ltb_ge; lia).
    rewrite B in P1. rewrite B' in P1'.
    do 2 eexists. split; [exact P1 |]. split; [exact P1' |].
    apply p_1_peak_below_linear; assumption.
  - rewrite E1' in Et1'. injection Et1' as <-.
    rewrite E2' in Et2'. injection Et2' as <-.
    assert (B : (s1 <? 5000000) = true) by (apply Z.ltb_lt; lia).
    assert (B' : (s1' <? 5000000) = true) by (apply Z.ltb_lt; lia).
    rewrite B in P2. rewrite B' in P2'.
    do 2 eexists. split; [exact P2 |]. split; [exact P2' |].
    apply p_2_polynomial_mono; assumption.
Qed.

Lemma estimator_monotone_up_to_the_peaks_witness :
  let self := {| min_length := 30; max_length := 70; split_psn := 71;
                 step_size := 10 |} in
  problem_size self 1000 1 = Ok 3712 /\
  problem_size self 2000 1 = Ok 7712 /\
  exists t t',
    predicted_execution_time self 1000 1 = Some t /\
    predicted_execution_time self 2000 1 = Some t' /\
    (t <= t')%Q.
Proof.
  intros self.
  split; [vm_compute; reflexivity |].
  split; [vm_compute; reflexivity |].
  apply (proj1 estimator_monotone_up_to_the_peaks self 1000 2000 1).
  - simpl. lia.
  - lia.
  - right. right. left. split; [reflexivity |].
    exists 7712. split; [vm_compute; reflexivity | lia].
Defined.

(** C9 as stated fails in the polynomial regime: with [min_length = 30],
    [max_length = 70], [step_size = 10] and the default [split_psn = 71],
    the factor-1 prediction for a series of 1,225,072 values (problem size
    4,900,000) is below the one for 625,072 values (problem size
    2,500,000), and likewise for factor 2. *)
Lemma estimator_not_monotone_in_polynomial_regime :
  let self := {| min_length := 30; max_length := 70; split_psn := 71;
                 step_size := 10 |} in
  625072 <= 1225072 /\
  problem_size self 625072 1 = Ok 2500000 /\
  problem_size self 1225072 1 = Ok 4900000 /\
  match predicted_execution_time self 625072 1,
        predicted_execution_time self 1225072 1 with
  | Some t, Some t' => (t' < t)%Q /\ (t' < 99)%Q /\ (116 < t)%Q
  | _, _ => False
  end /\
  match predicted_execution_time self 625072 2,
        predicted_execution_time self 1225072 2 with
  | Some t, Some t' => (t' < t)%Q
  | _, _ => False
  end.
Proof.
  vm_compute. repeat split; discriminate.
Qed.

(** The decrease is not an artefact of exact arithmetic: evaluated in
    binary64 at the same problem sizes, the polynomial models give the
    same ordering. *)
Example polynomial_models_decrease_in_binary64 :
  let t := polyval_binary64 p_1_polynomial_binary64 2500000 in
  let t' := polyval_binary64 p_1_polynomial_binary64 4900000 in
  let u := polyval_binary64 p_2_polynomial_binary64 625000 in
  let u' := polyval_binary64 p_2_polynomial_binary64 1225000 in
  (PrimFloat.ltb t' t && PrimFloat.ltb t' 99 && PrimFloat.ltb 116 t
   && PrimFloat.ltb u' u)%bool = true.
Proof. vm_compute. reflexivity. Qed.

(** The two peaks are at the same problem sizes in binary64. *)
Example polynomial_peaks_in_binary64 :
  let p := polyval_binary64 p_1_polynomial_binary64 in
  let q := polyval_binary64 p_2_polynomial_binary64 in
  (PrimFloat.leb (p 2890752%float) (p 2890753%float)
   && PrimFloat.ltb (p 2890754%float) (p 2890753%float)
   && PrimFloat.leb (q 638745%float) (q 638746%float)
   && PrimFloat.ltb (q 638747%float) (q 638746%float))%bool
  = true.
Proof. vm_compute. reflexivity. Qed.

(** ** The body of [_predict] *)

Lemma returns_only_ret {A} (P : A -> Prop) (a : A) :
  P a -> returns_only P (ret a).
Proof. intros H f. exact H. Qed.

Lemma returns_only_bind {A B} (P : B -> Prop) (c : M A) (k : A -> M B) :
  (forall a, returns_only P (k a)) -> returns_only P (bind c k).
Proof.
  intros H f. unfold bind. destruct (c f) as [f' [a | e]]; [apply H | exact I].
Qed.

Lemma predict_returns_only_None (self : MADRID) (X : list Q)
    (factor : option Z) (estimate_time : bool) :
  returns_only (eq VNone) (_predict self X factor estimate_time).
Proof.
  unfold _predict. cbv zeta.
  repeat (apply returns_only_bind; intros ?).
  apply returns_only_ret. reflexivity.
Qed.

(** C1 fails on the code: [_predict] never returns an array.  Whenever it
    returns, it returns [None]; on the four-value series 0, 1, 0, 1 with
    [min_length = 3], [max_length = 4], [step_size = 1], which passes the
    guard, it allocates the Discord Table, binds [m] and returns [None]. *)
Theorem predict_returns_None :
  (forall self X factor estimate_time,
     match outcome (_predict self X factor estimate_time) with
     | Ok v => v = VNone
     | Raise _ => True
     end) /\
  detect 3 4 1 None [0; 1; 0; 1]%Q None false =
  ([ ("m"%string, VInt 4);
     ("m_pointer"%string, VInt 1);
     ("m_set"%string, VArrayInt [3; 4]);
     ("bsf_loc"%string, VArray2 [[NaN]; [NaN]]);
     ("bsf"%string, VArray2 [[Fin 0]; [Fin 0]]);
     ("multilength_discord_table"%string,
        VArray2 [[NegInf; NegInf; NegInf; NegInf];
                 [NegInf; NegInf; NegInf; NegInf]]);
     ("num_cols"%string, VInt 4);
     ("num_rows"%string, VInt 2);
     ("time_bf"%string, VInt 0);
     ("k"%string, VInt 1);
     ("bfs_seed"%string, VFloat NegInf);
     ("len_x"%string, VInt 4) ],
   Ok VNone).
Proof.
  split.
  - intros self X factor estimate_time.
    pose proof (predict_returns_only_None self X factor estimate_time []) as H.
    unfold outcome, run.
    destruct (snd (_predict self X factor estimate_time [])); [| exact I].
    symmetry. exact H.
  - vm_compute. reflexivity.
Qed.

(** C3 fails on the code: with [estimate_time] set and [factor] unset (or
    falsy), a series that passes the guard makes [_predict] raise a
    [TypeError], because the estimator is called as
    [self._estimate_processing_time(self, len_x)], with one positional
    argument too many; the estimator never runs.  Called with the series
    length alone, the estimator computes its five predictions and returns
    [None]: it reports nothing to its caller. *)
Theorem estimate_time_raises_TypeError :
  forall self X factor,
    truthy factor = false ->
    min_length self <= len X ->
    _contains_constant_regions self X (min_length self) = Ok false ->
    run (_predict self X factor true) =
    ([ ("time_bf"%string, VInt 0);
       ("k"%string, VInt 1);
       ("bfs_seed"%string, VFloat NegInf);
       ("len_x"%string, VInt (len X)) ],
     Raise (TypeError (takes_positional_arguments_but_were_given 2 3))) /\
    (0 < step_size self ->
     forall len_x, outcome (_estimate_processing_time self len_x) = Ok VNone).
Proof.
  intros self X factor Hfactor Hlen Hflat. split.
  - pose proof (guards_pass_len self X Hlen Hflat) as Hsq.
    run_predict. rewrite Hfactor, Hflat, Hsq.
    destruct (Z.ltb_spec (len X) (min_length self)) as [Hlt | _]; [lia |].
    reflexivity.
  - intros Hstep len_x.
    destruct (problem_size_ok self Hstep len_x 1 ltac:(lia)) as (s1 & E1 & _).
    destruct (problem_size_ok self Hstep len_x 2 ltac:(lia)) as (s2 & E2 & _).
    destruct (problem_size_ok self Hstep len_x 4 ltac:(lia)) as (s4 & E4 & _).
    destruct (problem_size_ok self Hstep len_x 8 ltac:(lia)) as (s8 & E8 & _).
    destruct (problem_size_ok self Hstep len_x 16 ltac:(lia)) as (s16 & E16 & _).
    unfold outcome.
    rewrite (estimate_processing_time_run self len_x _ _ _ _ _ E1 E2 E4 E8 E16).
    reflexivity.
Qed.

Lemma estimate_time_raises_TypeError_witness :
  outcome (_predict {| min_length := 3; max_length := 4; split_psn := 5;
                       step_size := 1 |}
                    [0; 1; 0; 1; 0; 1]%Q None true)
  = Raise (TypeError (takes_positional_arguments_but_were_given 2 3)).
Proof.
  unfold outcome.
  rewrite (proj1 (estimate_time_raises_TypeError
                    {| min_length := 3; max_length := 4; split_psn := 5;
                       step_size := 1 |}
                    [0; 1; 0; 1; 0; 1]%Q None
                    eq_refl
                    ltac:(vm_compute; discriminate)
                    ltac:(vm_compute; reflexivity))).
  reflexivity.
Defined.

Lemma ceil_unit_fraction (s : Z) : 0 < s -> ceil (inject_Z 1 / inject_Z s) = 1.
Proof.
  intros Hs. pose proof (ceil_truediv 1 s Hs) as H.
  unfold ceiling_of in H. nia.
Qed.

(** C2 fails on the code for the single-length Length Set.  With
    [min_length = max_length] and a positive step, on a series that passes
    the guard, [m_set] holds the one length, [m_pointer] is 1, one past
    the only valid index 0, and the lookup [m_set[m_pointer]] raises an
    [IndexError]; [m] is never bound.  (With three lengths, [m_pointer] is
    2 and picks the last length, not the middle one.) *)
Theorem single_length_pivot_is_out_of_bounds :
  forall self X factor,
    0 < step_size self ->
    max_length self = min_length self ->
    min_length self <= len X ->
    _contains_constant_regions self X (min_length self) = Ok false ->
    let r := run (_predict self X factor false) in
    snd r = Raise (IndexError (index_is_out_of_bounds 1 1)) /\
    lookup "m_set" (fst r) = Some (VArrayInt [min_length self]) /\
    lookup "m_pointer" (fst r) = Some (VInt 1) /\
    lookup "m" (fst r) = None.
Proof.
  intros self X factor Hstep Hmax Hlen Hflat.
  pose proof (guards_pass_len self X Hlen Hflat) as Hsq.
  assert (Hdiv : truediv (max_length self + 1 - min_length self) (step_size self)
                 = Ok (inject_Z 1 / inject_Z (step_size self))%Q).
  { unfold truediv. destruct (Z.eqb_spec (step_size self) 0) as [E | _]; [lia |].
    do 3 f_equal. lia. }
  assert (Hset : np_arange (min_length self) (max_length self + 1) (step_size self)
                 = Ok [min_length self]).
  { unfold np_arange. rewrite Hdiv. cbn [result_bind].
    rewrite (ceil_unit_fraction _ Hstep).
    change (Z.to_nat 1) with 1%nat. cbn [seq map]. do 2 f_equal. lia. }
  assert (Hnonneg : (len X <? 0) = false).
  { apply Z.ltb_ge. unfold len. lia. }
  cbv zeta. run_predict.
  rewrite Hflat, Hsq, Hdiv, Hset, (ceil_unit_fraction _ Hstep).
  unfold np_full. rewrite Hnonneg.
  destruct (Z.ltb_spec (len X) (min_length self)) as [Hlt | _]; [lia |].
  rewrite andb_false_l. cbn. repeat split; reflexivity.
Qed.

Lemma single_length_pivot_is_out_of_bounds_witness :
  snd (detect 20 20 1 None (alternating 30) None false)
  = Raise (IndexError (index_is_out_of_bounds 1 1)).
Proof.
  apply (single_length_pivot_is_out_of_bounds
           {| min_length := 20; max_length := 20; split_psn := 21;
              step_size := 1 |}
           (alternating 30) None).
  - simpl. lia.
  - reflexivity.
  - vm_compute. discriminate.
  - vm_compute. reflexivity.
Defined.

(** With the three lengths 2, 3, 4 the pivot is the last length. *)
Example three_lengths_pivot_is_last :
  lookup "m" (fst (detect 2 4 1 None [0; 1; 0; 1]%Q None false))
  = Some (VInt 4).
Proof. vm_compute. reflexivity. Qed.

(** * Further properties *)

(** ** [_predict] past the guard *)















(** ** The Length Set and the Discord Table *)





(** ** The two optional knobs *)

Lemma predict_short_run (self : MADRID) (X : list Q) (factor : option Z)
    (estimate_time : bool) :
  estimate_time && truthy factor = false ->
  len X < min_length self ->
  run (_predict self X factor estimate_time) =
  ([], Raise (ValueError (Series_length_of_X_is_less_than_min_length
                            (len X) (min_length self)))).
Proof.
  intros Hknobs Hlen. run_predict. rewrite Hknobs.
  destruct (Z.ltb_spec (len X) (min_length self)); [reflexivity | lia].
Qed.

Lemma predict_flagged_run (self : MADRID) (X : list Q) (factor : option Z)
    (estimate_time : bool) :
  estimate_time && truthy factor = false ->
  min_length self <= len X ->
  _contains_constant_regions self X (min_length self) = Ok true ->
  run (_predict self X factor estimate_time) =
  ([], Raise (ValueError BREAK_constant_region)).
Proof.
  intros Hknobs Hlen Hflat. run_predict. rewrite Hknobs, Hflat.
  destruct (Z.ltb_spec (len X) (min_length self)); [lia | reflexivity].
Qed.

(** X1. [_predict] raises the both-parameters [ValueError] exactly when
    [estimate_time] is set together with a truthy [factor], whatever the
    detector and the series are (a series that is too short or degenerate
    included), and it does so on an empty frame. *)
Theorem both_knobs_error_iff :
  forall self X factor estimate_time,
    let e := ValueError You_cannot_set_both_parameters in
    (outcome (_predict self X factor estimate_time) = Raise e <->
     estimate_time = true /\ truthy factor = true) /\
    (estimate_time = true -> truthy factor = true ->
     run (_predict self X factor estimate_time) = ([], Raise e)).
Proof.
  intros self X factor estimate_time e.
  assert (Hboth : estimate_time = true -> truthy factor = true ->
                  run (_predict self X factor estimate_time) = ([], Raise e)).
  { intros -> Hf. run_predict. rewrite Hf. reflexivity. }
  split; [| exact Hboth]. split.
  - intros Hout.
    destruct (estimate_time && truthy factor) eqn:Hknobs.
    + apply andb_true_iff in Hknobs. exact Hknobs.
    + exfalso.
      destruct (Z.lt_ge_cases (len X) (min_length self)) as [Hshort | Hlong].
      * unfold outcome in Hout.
        rewrite (predict_short_run self X factor estimate_time Hknobs Hshort)
          in Hout.
        discriminate.
      * destruct (contains_constant_regions_iff self X (min_length self))
          as ([|] & Hb & Hiff).
        -- unfold outcome in Hout.
           rewrite (predict_flagged_run self X factor estimate_time
                      Hknobs Hlong Hb) in Hout.
           discriminate.
        -- pose proof (predict_past_guard self X factor estimate_time
                         Hknobs Hlong Hb) as Hpast.
           rewrite Hout in Hpast. discriminate.
  - intros [Het Hf]. unfold outcome. now rewrite (Hboth Het Hf).
Qed.

Lemma both_knobs_error_iff_witness :
  run (_predict {| min_length := 5; max_length := 8; split_psn := 9;
                   step_size := 1 |}
                (alternating 2) (Some 4) true)
  = ([], Raise (ValueError You_cannot_set_both_parameters)).
Proof.
  apply (both_knobs_error_iff
           {| min_length := 5; max_length := 8; split_psn := 9; step_size := 1 |}
           (alternating 2) (Some 4) true); reflexivity.
Defined.

(** X2. [_predict] uses neither [split_psn] nor the value of [factor]:
    two detectors with the same [min_length], [max_length] and [step_size]
    run alike on the same series, frame and outcome, for any two values of
    [factor] of which the check of the knobs makes no difference. *)
Theorem predict_ignores_split_psn_and_factor :
  forall self self' X factor factor' estimate_time,
    min_length self = min_length self' ->
    max_length self = max_length self' ->
    step_size self = step_size self' ->
    estimate_time && truthy factor = estimate_time && truthy factor' ->
    run (_predict self X factor estimate_time)
    = run (_predict self' X factor' estimate_time).
Proof.
  intros [mn mx sp st] [mn' mx' sp' st'] X factor factor' estimate_time.
  cbn [min_length max_length step_size]. intros <- <- <- Hknobs.
  run_predict. cbn [min_length max_length step_size].
  rewrite Hknobs. unfold _contains_constant_regions.
  unfold call__estimate_processing_time. reflexivity.
Qed.

Lemma predict_ignores_split_psn_and_factor_witness :
  run (_predict {| min_length := 3; max_length := 7; split_psn := 8;
                   step_size := 2 |}
                (alternating 12) (Some 16) false)
  = run (_predict {| min_length := 3; max_length := 7; split_psn := 100;
                     step_size := 2 |}
                  (alternating 12) None false).
Proof.
  apply (predict_ignores_split_psn_and_factor
           {| min_length := 3; max_length := 7; split_psn := 8; step_size := 2 |}
           {| min_length := 3; max_length := 7; split_psn := 100;
              step_size := 2 |}
           (alternating 12) (Some 16) None false); reflexivity.
Defined.

(** ** More on the flat-region test *)

Lemma constant_length_of_lengths (X : list Q) :
  constant_length_of X = py_max (constant_lengths_of X).
Proof. reflexivity. Qed.

Lemma constant_lengths_runs (x : Q) (tl : list Q) :
  constant_lengths_of (x :: tl) = runs_from 1 x tl.
Proof.
  unfold constant_lengths_of, np_where. cbn [app].
  replace (len (x :: tl)) with (0 + len (x :: tl)) by lia.
  rewrite change_points_runs. reflexivity.
Qed.

Lemma runs_from_sum (tl : list Q) :
  forall x cur, fold_right Z.add 0 (runs_from cur x tl) = cur + len tl.
Proof.
  induction tl as [| y tl' IH]; intros x cur.
  - unfold len. simpl. lia.
  - assert (Hlen : len (y :: tl') = len tl' + 1).
    { unfold len. simpl List.length. lia. }
    cbn [runs_from]. destruct (Qeq_bool (y - x) 0).
    + rewrite IH. lia.
    + cbn [fold_right]. rewrite IH. lia.
Qed.

Lemma runs_from_positive (tl : list Q) :
  forall x cur, 1 <= cur -> Forall (Z.le 1) (runs_from cur x tl).
Proof.
  induction tl as [| y tl' IH]; intros x cur Hcur.
  - repeat constructor. exact Hcur.
  - cbn [runs_from]. destruct (Qeq_bool (y - x) 0).
    + apply IH. lia.
    + constructor; [exact Hcur | apply IH; lia].
Qed.

(** X7. The run lengths the flat-region test computes between the
    change-points partition the series: on a non-empty series every one is
    at least 1 and they add up to the length of the series; on the empty
    series the only run length is 0. *)
Theorem run_lengths_partition_the_series :
  constant_lengths_of [] = [0] /\
  forall X,
    X <> [] ->
    Forall (Z.le 1) (constant_lengths_of X) /\
    fold_right Z.add 0 (constant_lengths_of X) = len X /\
    exists k, py_max (constant_lengths_of X) = Ok k /\ 1 <= k <= len X.
Proof.
  split; [reflexivity |].
  intros [| x tl] HX; [contradiction |].
  rewrite constant_lengths_runs.
  pose proof (runs_from_positive tl x 1 ltac:(lia)) as Hpos.
  pose proof (runs_from_sum tl x 1) as Hsum.
  assert (Hlen : len (x :: tl) = 1 + len tl).
  { unfold len. simpl List.length. lia. }
  split; [exact Hpos |]. split; [lia |].
  destruct (runs_from 1 x tl) as [| r0 rs] eqn:Hruns.
  - exfalso. cbn [fold_right] in Hsum. unfold len in Hsum. lia.
  - cbn [py_max]. eexists. split; [reflexivity |].
    destruct (fold_max_bounds rs r0) as [Hin Hub]. split.
    + rewrite Forall_forall in Hpos. apply Hpos. exact Hin.
    + assert (Hle : forall l : list Z, Forall (Z.le 1) l ->
                      forall r, In r l -> r <= fold_right Z.add 0 l).
      { induction l as [| a l IHl]; intros Hall r Hr; [destruct Hr |].
        inversion Hall as [| ? ? Ha Hl]; subst.
        assert (0 <= fold_right Z.add 0 l).
        { clear - Hl. induction Hl; simpl; lia. }
        destruct Hr as [<- | Hr]; simpl; [lia |].
        specialize (IHl Hl r Hr). lia. }
      specialize (Hle _ Hpos _ Hin). lia.
Qed.

Lemma run_lengths_partition_the_series_witness :
  fold_right Z.add 0 (constant_lengths_of [0; 5; 5; 5; 1; 7]%Q)
  = len [0; 5; 5; 5; 1; 7]%Q.
Proof.
  apply (proj2 run_lengths_partition_the_series [0; 5; 5; 5; 1; 7]%Q).
  discriminate.
Defined.

Lemma constant_run_length (X : list Q) (k : nat) :
  constant_run X k -> (k <= List.length X)%nat.
Proof.
  intros (pre & seg & post & v & -> & <- & _).
  rewrite !length_app. lia.
Qed.

Lemma constant_run_1 (x : Q) (tl : list Q) : constant_run (x :: tl) 1.
Proof.
  exists [], [x], tl, x. repeat split. constructor; [reflexivity | constructor].
Qed.

(** X6. The flat-region test never raises: [max] always gets at least one
    run length.  On the empty series the variance is [nan], the comparison
    with 0.2 is false, and the test answers whether
    [sub_sequence_length <= 0]. *)
Theorem contains_constant_regions_never_raises :
  forall self,
    (forall X m, exists b, _contains_constant_regions self X m = Ok b) /\
    (forall m, _contains_constant_regions self [] m = Ok (m <=? 0)).
Proof.
  intros self. split.
  - intros X m.
    destruct (contains_constant_regions_spec self X m) as (k & _ & E).
    eexists. exact E.
  - intros m. rewrite contains_constant_regions_unfold.
    change (variance_test []) with false.
    cbn. now rewrite orb_false_r.
Qed.

(** X9. The answer of the flat-region test can only switch from [True] to
    [False] as [sub_sequence_length] grows.  When [np.var(X)], as computed
    in binary64, compares below 0.2 it is [True] for every
    [sub_sequence_length]; otherwise it is [True] exactly for the values up
    to the length of the maximal run. *)
Theorem flat_region_test_antitone :
  forall self X,
    (forall m m', m' <= m ->
       _contains_constant_regions self X m = Ok true ->
       _contains_constant_regions self X m' = Ok true) /\
    (variance_below X ->
     forall m, _contains_constant_regions self X m = Ok true) /\
    (~ variance_below X ->
     forall k m, maximal_run X k ->
       _contains_constant_regions self X m = Ok (m <=? Z.of_nat k)).
Proof.
  intros self X. split; [| split].
  - intros m m' Hle Hm.
    destruct (contains_constant_regions_spec self X m) as (k & Hk & E).
    destruct (contains_constant_regions_spec self X m') as (k' & Hk' & E').
    rewrite (maximal_run_unique X k' k Hk' Hk) in E'.
    rewrite E in Hm. injection Hm as Hm. rewrite E'. f_equal.
    apply orb_true_iff in Hm. apply orb_true_iff.
    destruct Hm as [Hm | Hm]; [left | right; exact Hm].
    apply Z.leb_le in Hm. apply Z.leb_le. lia.
  - intros Hvar m.
    destruct (contains_constant_regions_spec self X m) as (k & _ & E).
    rewrite E. unfold variance_below in Hvar. rewrite Hvar.
    now rewrite orb_true_r.
  - intros Hvar k m Hk.
    destruct (contains_constant_regions_spec self X m) as (k' & Hk' & E).
    rewrite (maximal_run_unique X k' k Hk' Hk) in E. rewrite E.
    unfold variance_below in Hvar.
    destruct (variance_test X).
    + exfalso. now apply Hvar.
    + now rewrite orb_false_r.
Qed.

Lemma flat_region_test_antitone_witness :
  _contains_constant_regions
    {| min_length := 3; max_length := 4; split_psn := 5; step_size := 1 |}
    [0; 5; 5; 5; 1; 7]%Q 2 = Ok true.
Proof.
  apply (proj1 (flat_region_test_antitone
                  {| min_length := 3; max_length := 4; split_psn := 5;
                     step_size := 1 |}
                  [0; 5; 5; 5; 1; 7]%Q) 3 2).
  - lia.
  - vm_compute. reflexivity.
Defined.

(** X8. With [min_length <= 1] no series gets past the guard: whatever
    the series and the knobs, [_predict] ends with one of the guard's
    errors, before the Discord Table is allocated. *)
Theorem min_length_at_most_1_is_always_rejected :
  forall self X factor estimate_time,
    min_length self <= 1 ->
    guard_error (outcome (_predict self X factor estimate_time)) = true /\
    frame_of (_predict self X factor estimate_time) = [].
Proof.
  intros self X factor estimate_time Hmin.
  unfold outcome, frame_of.
  destruct (estimate_time && truthy factor) eqn:Hknobs.
  - apply andb_true_iff in Hknobs. destruct Hknobs as [-> Hf].
    run_predict. rewrite Hf. split; reflexivity.
  - destruct (Z.lt_ge_cases (len X) (min_length self)) as [Hshort | Hlong].
    + rewrite (predict_short_run self X factor estimate_time Hknobs Hshort).
      split; reflexivity.
    + assert (Hflat : _contains_constant_regions self X (min_length self)
                      = Ok true).
      { destruct (contains_constant_regions_spec self X (min_length self))
          as (k & [Hk Hmax] & E).
        rewrite E. f_equal. apply orb_true_iff. left. apply Z.leb_le.
        destruct X as [| x tl].
        - unfold len in Hlong. simpl in Hlong. lia.
        - pose proof (Hmax _ (constant_run_1 x tl)). lia. }
      rewrite (predict_flagged_run self X factor estimate_time
                 Hknobs Hlong Hflat).
      split; reflexivity.
Qed.

Lemma min_length_at_most_1_is_always_rejected_witness :
  guard_error
    (outcome (_predict {| min_length := 1; max_length := 4; split_psn := 5;
                          step_size := 1 |}
                       (alternating 12) None false)) = true.
Proof.
  apply (min_length_at_most_1_is_always_rejected
           {| min_length := 1; max_length := 4; split_psn := 5; step_size := 1 |}
           (alternating 12) None false).
  simpl. lia.
Defined.

(** ** More on the runtime estimator *)

Lemma count_stepped_empty (a b s n : Z) :
  b <= a -> count_stepped a b s n -> n = 0.
Proof.
  intros Hba [Hn H].
  destruct (Z.eq_dec n 0) as [E | Hne]; [exact E | exfalso].
  assert (H0 : 0 < n) by lia.
  apply (H 0 ltac:(lia)) in H0. lia.
Qed.

Lemma problem_size_zero (self : MADRID) (len_x factor : Z) :
  0 < step_size self -> 0 < factor ->
  len_x <= split_psn self + 1 \/ max_length self <= min_length self ->
  problem_size self len_x factor = Ok 0.
Proof.
  intros Hstep Hf Hempty.
  destruct (problem_size_ok self Hstep len_x factor Hf)
    as (s & E & p & lo & hi & l & Hp & Hlo & Hhi & Hl & ->).
  rewrite E. f_equal. destruct Hempty as [Hright | Hlengths].
  - assert (Hb : len_x - split_psn self <= 1) by lia.
    rewrite (count_stepped_empty _ _ _ _ Hb Hp). reflexivity.
  - pose proof (ceiling_of_mono _ _ _ _ _ Hf Hlengths Hhi Hlo) as Hle.
    rewrite (count_stepped_empty _ _ _ _ Hle Hl). lia.
Qed.

(** X11. When the right region is empty ([len_x <= split_psn + 1]) or
    the detector has a single length or an inverted range
    ([max_length <= min_length]), every problem size is 0, whatever the
    rest: the estimator predicts the constant terms of its models,
    -1.27055582771851e-05 seconds (a negative time) for factor 1,
    4.68415490390476e-07 for factor 2 and 0 for the factors 4, 8, 16. *)
Theorem zero_problem_size_predictions :
  forall self len_x,
    0 < step_size self ->
    len_x <= split_psn self + 1 \/ max_length self <= min_length self ->
    (forall f, In f [1; 2; 4; 8; 16] -> problem_size self len_x f = Ok 0) /\
    predicts self len_x 1 (-1.27055582771851e-05) /\
    predicts self len_x 2 4.68415490390476e-07 /\
    predicts self len_x 4 0 /\
    predicts self len_x 8 0 /\
    predicts self len_x 16 0 /\
    (exists t, predicted_execution_time self len_x 1 = Some t /\ (t < 0)%Q).
Proof.
  intros self len_x Hstep Hempty.
  assert (Hzero : forall f, 0 < f -> problem_size self len_x f = Ok 0).
  { intros f Hf. now apply problem_size_zero. }
  destruct (predicted_execution_times self len_x 0 0 0 0 0
              (Hzero 1 ltac:(lia)) (Hzero 2 ltac:(lia)) (Hzero 4 ltac:(lia))
              (Hzero 8 ltac:(lia)) (Hzero 16 ltac:(lia)))
    as (P1 & P2 & P4 & P8 & P16).
  split.
  { intros f Hf. apply Hzero. simpl in Hf. lia. }
  unfold predicts.
  repeat split.
  - eexists. split; [exact P1 | vm_compute; reflexivity].
  - eexists. split; [exact P2 | vm_compute; reflexivity].
  - eexists. split; [exact P4 | vm_compute; reflexivity].
  - eexists. split; [exact P8 | vm_compute; reflexivity].
  - eexists. split; [exact P16 | vm_compute; reflexivity].
  - eexists. split; [exact P1 | vm_compute; reflexivity].
Qed.

Lemma zero_problem_size_predictions_witness :
  predicts {| min_length := 20; max_length := 20; split_psn := 21;
              step_size := 1 |}
           2000 1 (-1.27055582771851e-05).
Proof.
  apply (zero_problem_size_predictions
           {| min_length := 20; max_length := 20; split_psn := 21;
              step_size := 1 |} 2000).
  - simpl. lia.
  - right. simpl. lia.
Defined.

Lemma count_stepped_double (a b f p p' : Z) :
  0 < f -> count_stepped a b f p -> count_stepped a b (2 * f) p' -> p' <= p.
Proof.
  intros Hf [Hp H] [Hp' H'].
  destruct (Z.le_gt_cases p' p) as [Hle | Hgt]; [exact Hle | exfalso].
  assert (Hlast : p < p') by lia.
  apply (H' p Hp) in Hlast.
  assert (Hin : a + p * f < b) by nia.
  apply (H p Hp) in Hin. lia.
Qed.

Lemma lengths_double (mn mx f s lo hi lo' hi' l l' : Z) :
  0 < f -> 0 < s ->
  ceiling_of mn f lo -> ceiling_of mx f hi ->
  ceiling_of mn (2 * f) lo' -> ceiling_of mx (2 * f) hi' ->
  count_stepped lo hi s l -> count_stepped lo' hi' s l' ->
  l' <= l.
Proof.
  unfold ceiling_of. intros Hf Hs Hlo Hhi Hlo' Hhi' [Hl H] [Hl' H'].
  destruct (Z.le_gt_cases l' l) as [Hle | Hgt]; [exact Hle | exfalso].
  assert (Hlast : l < l') by lia.
  apply (H' l Hl) in Hlast.
  assert (Ha : lo <= 2 * lo') by nia.
  assert (Hb : 2 * hi' - 1 <= hi) by nia.
  assert (Hz : 0 <= l * s) by nia.
  assert (Hin : lo + l * s < hi) by lia.
  apply (H l Hl) in Hin. lia.
Qed.

Lemma is_problem_size_double (self : MADRID) (len_x f s s' : Z) :
  0 < step_size self -> 0 < f ->
  is_problem_size self len_x f s ->
  is_problem_size self len_x (2 * f) s' ->
  0 <= s' <= s.
Proof.
  intros Hstep Hf (p & lo & hi & l & Hp & Hlo & Hhi & Hl & ->)
                  (p' & lo' & hi' & l' & Hp' & Hlo' & Hhi' & Hl' & ->).
  pose proof (count_stepped_double _ _ _ _ _ Hf Hp Hp') as Hpp.
  pose proof (lengths_double _ _ _ _ _ _ _ _ _ _ Hf Hstep Hlo Hhi Hlo' Hhi' Hl Hl')
    as Hll.
  destruct Hp' as [Hp'0 _]. destruct Hl' as [Hl'0 _]. nia.
Qed.

(** X12. Doubling the downsampling factor never enlarges the problem
    size: for a detector with a positive step the five problem sizes the
    estimator computes satisfy
    [0 <= s16 <= s8 <= s4 <= s2 <= s1]. *)
Theorem problem_size_antitone_in_factor :
  forall self len_x,
    0 < step_size self ->
    exists s1 s2 s4 s8 s16,
      problem_size self len_x 1 = Ok s1 /\
      problem_size self len_x 2 = Ok s2 /\
      problem_size self len_x 4 = Ok s4 /\
      problem_size self len_x 8 = Ok s8 /\
      problem_size self len_x 16 = Ok s16 /\
      0 <= s16 /\ s16 <= s8 /\ s8 <= s4 /\ s4 <= s2 /\ s2 <= s1.
Proof.
  intros self len_x Hstep.
  destruct (problem_size_ok self Hstep len_x 1 ltac:(lia)) as (s1 & E1 & H1).
  destruct (problem_size_ok self Hstep len_x 2 ltac:(lia)) as (s2 & E2 & H2).
  destruct (problem_size_ok self Hstep len_x 4 ltac:(lia)) as (s4 & E4 & H4).
  destruct (problem_size_ok self Hstep len_x 8 ltac:(lia)) as (s8 & E8 & H8).
  destruct (problem_size_ok self Hstep len_x 16 ltac:(lia)) as (s16 & E16 & H16).
  exists s1, s2, s4, s8, s16.
  pose proof (is_problem_size_double self len_x 1 _ _ Hstep ltac:(lia) H1 H2).
  pose proof (is_problem_size_double self len_x 2 _ _ Hstep ltac:(lia) H2 H4).
  pose proof (is_problem_size_double self len_x 4 _ _ Hstep ltac:(lia) H4 H8).
  pose proof (is_problem_size_double self len_x 8 _ _ Hstep ltac:(lia) H8 H16).
  repeat split; try assumption; lia.
Qed.

Lemma problem_size_antitone_in_factor_witness :
  exists s1 s16,
    problem_size {| min_length := 30; max_length := 70; split_psn := 71;
                    step_size := 10 |} 1000 1 = Ok s1 /\
    problem_size {| min_length := 30; max_length := 70; split_psn := 71;
                    step_size := 10 |} 1000 16 = Ok s16 /\
    0 <= s16 <= s1.
Proof.
  destruct (problem_size_antitone_in_factor
              {| min_length := 30; max_length := 70; split_psn := 71;
                 step_size := 10 |} 1000)
    as (s1 & s2 & s4 & s8 & s16 & E1 & _ & _ & _ & E16 & H).
  - simpl. lia.
  - exists s1, s16. split; [exact E1 | split; [exact E16 | lia]].
Defined.




(** ** When [_predict] returns *)



